(** * notebooklm-mcp: a shallow embedding of [src/index.ts]

    The server drives a browser through puppeteer and answers three MCP tool
    calls.  The browser is the environment: every puppeteer primitive the
    source awaits is a field of [Env], a deterministic transition on an
    abstract world [W] that either returns a value or throws.  The program
    itself is written in a state-and-exception monad over the two module
    variables [browser] and [page], the world, and a ghost log of the
    puppeteer calls that were issued.

    JavaScript strings are modelled as [string] holding their UTF-8 bytes. *)

From Stdlib Require Import String Ascii List Bool Arith NArith.
From Stdlib Require Import DecimalString.
Import ListNotations.
Local Open Scope list_scope.
Local Open Scope string_scope.

(** ** Strings *)

Module Js.

(** The double quote and the line feed, which the source writes inside its
    literals. *)
Definition dq : string := String "034"%char EmptyString.
Definition nl : string := String "010"%char EmptyString.

(** [String.prototype.includes]: does [sub] occur in [s]? *)
Fixpoint includes (s sub : string) : bool :=
  if prefix sub s then true
  else match s with
       | EmptyString => false
       | String _ rest => includes rest sub
       end.

(** The declarative reading of "contains as a literal substring". *)
Definition contains (sub s : string) : Prop :=
  exists pre post, s = pre ++ sub ++ post.

(** [Array.prototype.join]. *)
Fixpoint join (sep : string) (xs : list string) : string :=
  match xs with
  | [] => EmptyString
  | [x] => x
  | x :: rest => x ++ sep ++ join sep rest
  end.

(** [Array.prototype.map] with the index as second callback argument. *)
Fixpoint mapi_from {A B} (i : nat) (f : A -> nat -> B) (xs : list A) : list B :=
  match xs with
  | [] => []
  | x :: rest => f x i :: mapi_from (S i) f rest
  end.

Definition mapi {A B} (f : A -> nat -> B) (xs : list A) : list B :=
  mapi_from 0 f xs.

(** A number in a template literal: its decimal digits. *)
Definition string_of_nat (n : nat) : string :=
  NilEmpty.string_of_uint (Nat.to_uint n).

(** *** [String.prototype.trim]

    White space and line terminators of ECMAScript, as UTF-8 byte
    sequences: U+0009..U+000D and U+0020 (one byte), U+00A0 (two bytes),
    U+1680, U+2000..U+200A, U+2028, U+2029, U+202F, U+205F, U+3000 and
    U+FEFF (three bytes). *)
Definition ws1 (a : ascii) : bool :=
  let n := nat_of_ascii a in
  (((9 <=? n) && (n <=? 13)) || (n =? 32))%nat.

Definition ws2 (a b : ascii) : bool :=
  ((nat_of_ascii a =? 194) && (nat_of_ascii b =? 160))%nat.

Definition ws3 (a b c : ascii) : bool :=
  let x := nat_of_ascii a in
  let y := nat_of_ascii b in
  let z := nat_of_ascii c in
  (((x =? 225) && (y =? 154) && (z =? 128))
  || ((x =? 226) && (y =? 128)
      && (((128 <=? z) && (z <=? 138)) || (z =? 168) || (z =? 169) || (z =? 175)))
  || ((x =? 226) && (y =? 129) && (z =? 159))
  || ((x =? 227) && (y =? 128) && (z =? 128))
  || ((x =? 239) && (y =? 187) && (z =? 191)))%nat.

(** Dropping leading white space from a list of bytes; [rev] selects the
    byte order of a multi-byte code point, so that the same scan serves
    both ends of the string. *)
Fixpoint drop_ws (rev : bool) (l : list ascii) : list ascii :=
  match l with
  | [] => l
  | a :: r1 =>
      if ws1 a then drop_ws rev r1
      else match r1 with
           | [] => l
           | b :: r2 =>
               if (if rev then ws2 b a else ws2 a b) then drop_ws rev r2
               else match r2 with
                    | [] => l
                    | c :: r3 =>
                        if (if rev then ws3 c b a else ws3 a b c)
                        then drop_ws rev r3
                        else l
                    end
           end
  end.

Definition trim (s : string) : string :=
  let front := drop_ws false (list_ascii_of_string s) in
  string_of_list_ascii (List.rev (drop_ws true (List.rev front))).

(** Truthiness of a string: every string but the empty one. *)
Definition truthy (s : string) : bool :=
  match s with
  | EmptyString => false
  | String _ _ => true
  end.

(** *** Thrown values

    What the source catches and interpolates are [Error] objects; [`${e}`]
    is [Error.prototype.toString]. *)
Record Error : Type := mkError { err_name : string; err_message : string }.

Definition toString (e : Error) : string :=
  match err_name e, err_message e with
  | EmptyString, msg => msg
  | name, EmptyString => name
  | name, msg => name ++ ": " ++ msg
  end.

(** [new Error(msg)]. *)
Definition new_Error (msg : string) : Error := mkError "Error" msg.

(** Reading property [prop] of [null]. *)
Definition null_read (prop : string) : Error :=
  mkError "TypeError"
    ("Cannot read properties of null (reading '" ++ prop ++ "')").

(** Reading property [prop] of [undefined]. *)
Definition undefined_read (prop : string) : Error :=
  mkError "TypeError"
    ("Cannot read properties of undefined (reading '" ++ prop ++ "')").

End Js.

(** ** Outcomes of an awaited call *)

Inductive Outcome (A : Type) : Type :=
| Returned (a : A)
| Thrown (e : Js.Error).
Arguments Returned {A} a.
Arguments Thrown {A} e.

(** ** The browser *)

(** Handles are opaque to the program; they are told apart by a number. *)
Definition Browser := nat.
Definition Page := nat.
Definition ElementHandle := nat.

(** The puppeteer calls of the source, with the arguments it passes. *)
Inductive Action : Type :=
| Launch (headless : bool) (args : list string)
| NewPage (b : Browser)
| Goto (p : Page) (url waitUntil : string)
| WaitForSelector (p : Page) (selector : string) (timeout : N)
| TypeInto (p : Page) (selector text : string)
| Click (p : Page) (selector : string)
| WaitForNavigation (p : Page) (waitUntil : string)
| QueryAll (p : Page) (selector : string)
| TextContentOf (h : ElementHandle)
| ClickHandle (h : ElementHandle)
| KeyboardType (p : Page) (text : string)
| KeyboardPress (p : Page) (key : string)
| QueryAllTextContent (p : Page) (selector : string).

(** The environment: what each puppeteer primitive does to the world and
    what it hands back.  [url] is the synchronous getter [page.url()].
    [queryAllTextContent] gives the [textContent] of the elements matched by
    [$$eval], in document order ([None] for [null]); the callback of the
    source is applied to it by the model. *)
Record Env (W : Type) : Type := mkEnv {
  launch : bool -> list string -> W -> W * Outcome Browser;
  newPage : Browser -> W -> W * Outcome Page;
  goto : Page -> string -> string -> W -> W * Outcome unit;
  url : Page -> W -> string;
  waitForSelector : Page -> string -> N -> W -> W * Outcome unit;
  typeInto : Page -> string -> string -> W -> W * Outcome unit;
  click : Page -> string -> W -> W * Outcome unit;
  waitForNavigation : Page -> string -> W -> W * Outcome unit;
  queryAll : Page -> string -> W -> W * Outcome (list ElementHandle);
  textContentOf : ElementHandle -> W -> W * Outcome (option string);
  clickHandle : ElementHandle -> W -> W * Outcome unit;
  keyboardType : Page -> string -> W -> W * Outcome unit;
  keyboardPress : Page -> string -> W -> W * Outcome unit;
  queryAllTextContent : Page -> string -> W -> W * Outcome (list (option string))
}.
Arguments launch {W}. Arguments newPage {W}. Arguments goto {W}.
Arguments url {W}. Arguments waitForSelector {W}. Arguments typeInto {W}.
Arguments click {W}. Arguments waitForNavigation {W}. Arguments queryAll {W}.
Arguments textContentOf {W}. Arguments clickHandle {W}.
Arguments keyboardType {W}. Arguments keyboardPress {W}.
Arguments queryAllTextContent {W}.

(** ** Module state and the monad *)

(** [browser] and [page] are the two module-level variables (lines 12-13);
    [world] is the browser outside; [trace] logs the puppeteer calls made so
    far, oldest first. *)
Record State (W : Type) : Type := mkState {
  world : W;
  browser : option Browser;
  page : option Page;
  trace : list Action
}.
Arguments mkState {W}. Arguments world {W}. Arguments browser {W}.
Arguments page {W}. Arguments trace {W}.

Definition M (W A : Type) : Type := State W -> State W * Outcome A.

Definition ret {W A} (a : A) : M W A := fun s => (s, Returned a).

Definition throw {W A} (e : Js.Error) : M W A := fun s => (s, Thrown e).

Definition bind {W A B} (m : M W A) (k : A -> M W B) : M W B :=
  fun s =>
    match m s with
    | (s1, Returned a) => k a s1
    | (s1, Thrown e) => (s1, Thrown e)
    end.

(** [try { body } catch (e) { handler }]. *)
Definition try_catch {W A} (body : M W A) (handler : Js.Error -> M W A) : M W A :=
  fun s =>
    match body s with
    | (s1, Returned a) => (s1, Returned a)
    | (s1, Thrown e) => handler e s1
    end.

Declare Scope js_scope.
Delimit Scope js_scope with js.
Notation "x <- m ;; k" := (bind m (fun x => k))
  (at level 61, m at next level, right associativity) : js_scope.
Notation "m ;; k" := (bind m (fun _ => k))
  (at level 61, right associativity) : js_scope.
Local Open Scope js_scope.

(** An awaited puppeteer call: the world moves, the call is logged. *)
Definition await {W A} (a : Action) (f : W -> W * Outcome A) : M W A :=
  fun s =>
    let (w, r) := f (world s) in
    (mkState w (browser s) (page s) (trace s ++ [a])%list, r).

Definition get_browser {W} : M W (option Browser) := fun s => (s, Returned (browser s)).
Definition get_page {W} : M W (option Page) := fun s => (s, Returned (page s)).
Definition set_browser {W} (b : option Browser) : M W unit :=
  fun s => (mkState (world s) b (page s) (trace s), Returned tt).
Definition set_page {W} (p : option Page) : M W unit :=
  fun s => (mkState (world s) (browser s) p (trace s), Returned tt).

(** A method call [p.prop(...)] on a value of type [Page | null]: on [null]
    the property read throws before anything reaches the browser. *)
Definition on_page {W A} (p : option Page) (prop : string) (k : Page -> M W A) : M W A :=
  match p with
  | Some pg => k pg
  | None => throw (Js.null_read prop)
  end.

(** Code that leaves the module variables alone. *)
Definition keeps_module {W A} (m : M W A) : Prop :=
  forall s s' r, m s = (s', r) -> browser s' = browser s /\ page s' = page s.

(** ** The program *)

(** The [CallTool] request parameters.  The handler reads [arguments] at
    the type [{ title: string }]; a request may leave [arguments] out. *)
Record Arguments_ : Type := mkArguments { title : string }.
Record CallToolRequest : Type := mkRequest {
  name : string;
  arguments : option Arguments_
}.

(** The response envelope [{ content: [{ type: "text", text }] }]. *)
Record ContentItem : Type := mkContent { content_type : string; text : string }.
Record CallToolResult : Type := mkResult { content : list ContentItem }.

Definition text_result (result : string) : CallToolResult :=
  mkResult [mkContent "text" result].

(** The tool catalog, with its JSON-schema shaped input descriptions. *)
Record PropertySchema : Type := mkProperty {
  property_type : string;
  property_description : string
}.
Record InputSchema : Type := mkSchema {
  schema_type : string;
  properties : list (string * PropertySchema);
  required : option (list string)
}.
Record Tool : Type := mkTool {
  tool_name : string;
  description : string;
  inputSchema : InputSchema
}.
Record ListToolsResult : Type := mkTools { tools : list Tool }.

Definition LAUNCH_ARGS : list string := ["--no-sandbox"; "--disable-setuid-sandbox"].
Definition APP_URL : string := "https://notebooklm.google.com".
Definition networkidle2 : string := "networkidle2".

Definition EMAIL_INPUT : string := "input[type=" ++ Js.dq ++ "email" ++ Js.dq ++ "]".
Definition PASSWORD_INPUT : string := "input[type=" ++ Js.dq ++ "password" ++ Js.dq ++ "]".
Definition NEW_NOTEBOOK_SELECTOR : string :=
  "[aria-label=" ++ Js.dq ++ "New notebook" ++ Js.dq ++ "], button[jsname]".
Definition TITLE_INPUT_SELECTOR : string := "input[placeholder], input[aria-label]".
Definition NOTEBOOK_TITLE_SELECTOR : string :=
  "[data-testid=" ++ Js.dq ++ "notebook-title" ++ Js.dq ++ "], .notebook-title, h3".

(** The texts the handlers answer with. *)
Definition created_message (title : string) : string :=
  "노트북 " ++ Js.dq ++ title ++ Js.dq ++ " 생성 완료!".
Definition create_error_message (e : Js.Error) : string :=
  "노트북 생성 중 오류 발생: " ++ Js.toString e
  ++ ". NotebookLM 페이지를 직접 확인해주세요.".
Definition empty_list_message : string :=
  "노트북이 없거나 목록을 불러오지 못했습니다.".
Definition list_header : string := "노트북 목록:" ++ Js.nl.
Definition list_error_message (e : Js.Error) : string :=
  "목록 불러오기 오류: " ++ Js.toString e.
Definition opened_message : string := "NotebookLM을 브라우저에서 열었습니다.".
Definition unsupported_tool : Js.Error := Js.new_Error "지원하지 않는 도구입니다.".

(** [text && text.includes("New notebook")] on a [string | null]. *)
Definition is_new_notebook (text : option string) : bool :=
  match text with
  | None => false
  | Some t => Js.truthy t && Js.includes t "New notebook"
  end.

(** The callback of [$$eval] (line 87):
    [els.map((el) => el.textContent?.trim()).filter(Boolean)]. *)
Fixpoint filter_Boolean (xs : list (option string)) : list string :=
  match xs with
  | [] => []
  | Some t :: rest =>
      if Js.truthy t then t :: filter_Boolean rest else filter_Boolean rest
  | None :: rest => filter_Boolean rest
  end.

Definition trimmed_texts (els : list (option string)) : list string :=
  filter_Boolean (map (option_map Js.trim) els).

(** [notebooks.map((n, i) => `${i + 1}. ${n}`).join("\n")]. *)
Definition numbered (notebooks : list string) : string :=
  Js.join Js.nl
    (Js.mapi (fun n i => Js.string_of_nat (i + 1) ++ ". " ++ n) notebooks).

Section Program.

Context {W : Type} (env : Env W).

(** Lines 15-16: the credentials, read once from the process environment. *)
Context (GOOGLE_EMAIL GOOGLE_PASSWORD : string).

(** *** Page methods *)

Definition page_goto (p : option Page) (u waitUntil : string) : M W unit :=
  on_page p "goto" (fun pg => await (Goto pg u waitUntil) (goto env pg u waitUntil)).

Definition page_url (p : option Page) : M W string :=
  on_page p "url" (fun pg s => (s, Returned (url env pg (world s)))).

Definition page_waitForSelector (p : option Page) (sel : string) (timeout : N) : M W unit :=
  on_page p "waitForSelector"
    (fun pg => await (WaitForSelector pg sel timeout) (waitForSelector env pg sel timeout)).

Definition page_type (p : option Page) (sel txt : string) : M W unit :=
  on_page p "type" (fun pg => await (TypeInto pg sel txt) (typeInto env pg sel txt)).

Definition page_click (p : option Page) (sel : string) : M W unit :=
  on_page p "click" (fun pg => await (Click pg sel) (click env pg sel)).

Definition page_waitForNavigation (p : option Page) (waitUntil : string) : M W unit :=
  on_page p "waitForNavigation"
    (fun pg => await (WaitForNavigation pg waitUntil) (waitForNavigation env pg waitUntil)).

Definition page_queryAll (p : option Page) (sel : string) : M W (list ElementHandle) :=
  on_page p "$$" (fun pg => await (QueryAll pg sel) (queryAll env pg sel)).

Definition keyboard_type (p : option Page) (txt : string) : M W unit :=
  on_page p "keyboard" (fun pg => await (KeyboardType pg txt) (keyboardType env pg txt)).

Definition keyboard_press (p : option Page) (key : string) : M W unit :=
  on_page p "keyboard" (fun pg => await (KeyboardPress pg key) (keyboardPress env pg key)).

Definition page_evalAll (p : option Page) (sel : string) : M W (list string) :=
  on_page p "$$eval"
    (fun pg =>
       els <- await (QueryAllTextContent pg sel) (queryAllTextContent env pg sel) ;;
       ret (trimmed_texts els)).

Definition handle_textContent (h : ElementHandle) : M W (option string) :=
  await (TextContentOf h) (textContentOf env h).

Definition handle_click (h : ElementHandle) : M W unit :=
  await (ClickHandle h) (clickHandle env h).

(** *** Lines 18-27 *)
Definition initBrowser : M W (option Page) :=
  b <- get_browser ;;
  match b with
  | None =>
      b' <- await (Launch false LAUNCH_ARGS) (launch env false LAUNCH_ARGS) ;;
      set_browser (Some b') ;;
      p <- await (NewPage b') (newPage env b') ;;
      set_page (Some p)
  | Some _ => ret tt
  end ;;
  get_page.

(** *** Lines 29-47 *)
Definition loginToGoogle (page : option Page) : M W unit :=
  page_goto page APP_URL networkidle2 ;;
  u <- page_url page ;;
  skip <- (if Js.includes u "notebooklm.google.com"
           then u' <- page_url page ;;
                ret (negb (Js.includes u' "accounts.google.com"))
           else ret false) ;;
  if skip : bool then ret tt
  else
    page_waitForSelector page EMAIL_INPUT 10000%N ;;
    page_type page EMAIL_INPUT GOOGLE_EMAIL ;;
    page_click page "#identifierNext" ;;
    page_waitForSelector page PASSWORD_INPUT 10000%N ;;
    page_type page PASSWORD_INPUT GOOGLE_PASSWORD ;;
    page_click page "#passwordNext" ;;
    page_waitForNavigation page networkidle2.

(** *** Lines 49-76 *)

(** The [for ... of] loop of lines 59-65: the first button whose text
    holds the label is clicked and the loop left. *)
Fixpoint click_first_new_notebook (buttons : list ElementHandle) : M W unit :=
  match buttons with
  | [] => ret tt
  | btn :: rest =>
      txt <- handle_textContent btn ;;
      if is_new_notebook txt then handle_click btn
      else click_first_new_notebook rest
  end.

(** The body of the [try] block, lines 57-72. *)
Definition createNotebook_try (p : option Page) (title : string) : M W string :=
  page_waitForSelector p NEW_NOTEBOOK_SELECTOR 8000%N ;;
  buttons <- page_queryAll p "button" ;;
  click_first_new_notebook buttons ;;
  page_waitForSelector p TITLE_INPUT_SELECTOR 5000%N ;;
  keyboard_type p title ;;
  keyboard_press p "Enter" ;;
  ret (created_message title).

Definition createNotebook (title : string) : M W string :=
  p <- initBrowser ;;
  loginToGoogle p ;;
  page_goto p APP_URL networkidle2 ;;
  try_catch (createNotebook_try p title)
            (fun e => ret (create_error_message e)).

(** *** Lines 78-95 *)
Definition listNotebooks_try (p : option Page) : M W string :=
  notebooks <- page_evalAll p NOTEBOOK_TITLE_SELECTOR ;;
  if (length notebooks =? 0)%nat then ret empty_list_message
  else ret (list_header ++ numbered notebooks).

Definition listNotebooks : M W string :=
  p <- initBrowser ;;
  loginToGoogle p ;;
  page_goto p APP_URL networkidle2 ;;
  try_catch (listNotebooks_try p)
            (fun e => ret (list_error_message e)).

(** *** Lines 104-134 *)
Definition listToolsHandler : M W ListToolsResult :=
  ret (mkTools
    [ mkTool "create_notebook" "새로운 NotebookLM 프로젝트를 생성합니다."
        (mkSchema "object"
           [("title", mkProperty "string" "노트북 제목")]
           (Some ["title"]));
      mkTool "list_notebooks" "현재 NotebookLM의 노트북 목록을 가져옵니다."
        (mkSchema "object" [] None);
      mkTool "open_notebooklm" "브라우저에서 NotebookLM을 엽니다."
        (mkSchema "object" [] None) ]).

(** *** Lines 137-158 *)
Definition callToolHandler (request : CallToolRequest) : M W CallToolResult :=
  let args := arguments request in
  if (name request =? "create_notebook")%string then
    t <- match args with
         | Some a => ret (title a)
         | None => throw (Js.undefined_read "title")
         end ;;
    result <- createNotebook t ;;
    ret (text_result result)
  else if (name request =? "list_notebooks")%string then
    result <- listNotebooks ;;
    ret (text_result result)
  else if (name request =? "open_notebooklm")%string then
    p <- initBrowser ;;
    loginToGoogle p ;;
    ret (text_result opened_message)
  else throw unsupported_tool.

End Program.

(** ** Vocabulary of the statements *)

(** The test of line 33 on the URL read after the first navigation. *)
Definition already_signed_in (u : string) : bool :=
  Js.includes u "notebooklm.google.com"
  && negb (Js.includes u "accounts.google.com").

(** The puppeteer calls of lines 38-46, in source order. *)
Definition login_script (pg : Page) (email password : string) : list Action :=
  [ WaitForSelector pg EMAIL_INPUT 10000%N;
    TypeInto pg EMAIL_INPUT email;
    Click pg "#identifierNext";
    WaitForSelector pg PASSWORD_INPUT 10000%N;
    TypeInto pg PASSWORD_INPUT password;
    Click pg "#passwordNext";
    WaitForNavigation pg networkidle2 ].

(** Waiting for an element to appear, as opposed to acting on the page. *)
Definition is_selector_wait (a : Action) : bool :=
  match a with
  | WaitForSelector _ _ _ => true
  | _ => false
  end.

Definition is_click (a : Action) : bool :=
  match a with
  | Click _ _ | ClickHandle _ => true
  | _ => false
  end.

(** The invariant of the module variables: a browser comes with a page. *)
Definition session_ok {W} (s : State W) : Prop :=
  browser s <> None -> page s <> None.

Section Vocabulary.

Context {W : Type} (env : Env W).
Context (GOOGLE_EMAIL GOOGLE_PASSWORD : string).

(** What both [createNotebook] and [listNotebooks] do before they enter
    their [try] block (lines 50-53 and 79-82). *)
Definition enter_app : M W (option Page) :=
  p <- initBrowser env ;;
  loginToGoogle env GOOGLE_EMAIL GOOGLE_PASSWORD p ;;
  page_goto env p APP_URL networkidle2 ;;
  ret p.

(** The world after the text of every button in [buttons] has been read, in
    order, when each read returns and none of the texts holds the label;
    [None] otherwise. *)
Fixpoint scan_without_match (buttons : list ElementHandle) (w : W) : option W :=
  match buttons with
  | [] => Some w
  | btn :: rest =>
      match textContentOf env btn w with
      | (w1, Returned txt) =>
          if is_new_notebook txt then None else scan_without_match rest w1
      | (_, Thrown _) => None
      end
  end.

(** The one way a call breaks [session_ok]: it found no browser, launched
    one, and opening the page threw.  [browser] is then set and [page] is
    what it was; [initBrowser] from there on hands out that old [page]
    without calling the browser. *)
Definition page_creation_failed {A} (s s' : State W) (r : Outcome A) : Prop :=
  exists b w1 w2 e,
    browser s = None
    /\ launch env false LAUNCH_ARGS (world s) = (w1, Returned b)
    /\ newPage env b w1 = (w2, Thrown e)
    /\ r = Thrown e
    /\ browser s' = Some b
    /\ page s' = page s
    /\ initBrowser env s' = (s', Returned (page s)).

End Vocabulary.

(** ** A simulated browser

    A small concrete world on which the program can be run: a site that
    redirects to the sign-in page until the password form is submitted, a
    fixed set of buttons and notebook titles, and an optional fault that
    makes chosen puppeteer calls throw. *)
Module Sim.

Record World : Type := mkWorld {
  logged_in : bool;
  current_url : string;
  buttons : list (ElementHandle * option string);
  titles : list (option string);
  fault : Action -> option Js.Error
}.

Definition SIGN_IN_URL : string :=
  "https://accounts.google.com/v3/signin/identifier".

Definition the_browser : Browser := 1.
Definition the_page : Page := 7.

(** Run [ok] unless the fault of the world hits the action. *)
Definition attempt {A} (a : Action) (ok : World -> World * A) (w : World)
  : World * Outcome A :=
  match fault w a with
  | Some e => (w, Thrown e)
  | None => let (w', x) := ok w in (w', Returned x)
  end.

Definition idle (w : World) : World * unit := (w, tt).

Definition navigate (u : string) (w : World) : World * unit :=
  (mkWorld (logged_in w)
           (if logged_in w then u else SIGN_IN_URL)
           (buttons w) (titles w) (fault w), tt).

Definition submit (sel : string) (w : World) : World * unit :=
  if (sel =? "#passwordNext")%string
  then (mkWorld true APP_URL (buttons w) (titles w) (fault w), tt)
  else (w, tt).

Fixpoint text_of (h : ElementHandle) (bs : list (ElementHandle * option string))
  : option string :=
  match bs with
  | [] => None
  | (h', t) :: rest => if (h =? h')%nat then t else text_of h rest
  end.

Definition env : Env World := {|
  launch := fun h args => attempt (Launch h args) (fun w => (w, the_browser));
  newPage := fun b => attempt (NewPage b) (fun w => (w, the_page));
  goto := fun p u wu => attempt (Goto p u wu) (navigate u);
  url := fun _ w => current_url w;
  waitForSelector := fun p sel t => attempt (WaitForSelector p sel t) idle;
  typeInto := fun p sel txt => attempt (TypeInto p sel txt) idle;
  click := fun p sel => attempt (Click p sel) (submit sel);
  waitForNavigation := fun p wu => attempt (WaitForNavigation p wu) idle;
  queryAll := fun p sel =>
    attempt (QueryAll p sel) (fun w => (w, map fst (buttons w)));
  textContentOf := fun h =>
    attempt (TextContentOf h) (fun w => (w, text_of h (buttons w)));
  clickHandle := fun h => attempt (ClickHandle h) idle;
  keyboardType := fun p txt => attempt (KeyboardType p txt) idle;
  keyboardPress := fun p key => attempt (KeyboardPress p key) idle;
  queryAllTextContent := fun p sel =>
    attempt (QueryAllTextContent p sel) (fun w => (w, titles w))
|}.

Definition no_fault : Action -> option Js.Error := fun _ => None.

(** The module state when the process starts (lines 12-13) in world [w]. *)
Definition start (w : World) : State World := mkState w None None [].

(** A signed-out site with one "New notebook" button and three notebooks. *)
Definition signed_out : World :=
  mkWorld false "about:blank"
    [(11, Some "Settings"); (12, Some "New notebook"); (13, Some "Help")]
    [Some "A"; Some " B "; None; Some "C"]
    no_fault.

(** A signed-in site without any "New notebook" button and no notebook. *)
Definition signed_in_bare : World :=
  mkWorld true "about:blank"
    [(11, Some "Settings"); (13, None)]
    [None; Some "  "]
    no_fault.

(** The browser cannot be started. *)
Definition launch_fails : World :=
  mkWorld false "about:blank" [] []
    (fun a => match a with
              | Launch _ _ => Some (Js.new_Error "Failed to launch the browser process!")
              | _ => None
              end).

(** The browser starts but refuses to open a tab. *)
Definition newPage_fails : World :=
  mkWorld true "about:blank" [] []
    (fun a => match a with
              | NewPage _ => Some (Js.new_Error "Target closed")
              | _ => None
              end).

(** Every navigation times out. *)
Definition goto_fails : World :=
  mkWorld true "about:blank" [] []
    (fun a => match a with
              | Goto _ _ _ => Some (Js.mkError "TimeoutError" "Navigation timeout of 30000 ms exceeded")
              | _ => None
              end).

(** The title input never shows up. *)
Definition title_input_missing : World :=
  mkWorld true "about:blank" [(12, Some "New notebook")] []
    (fun a => match a with
              | WaitForSelector _ _ 5000%N =>
                  Some (Js.mkError "TimeoutError" "Waiting for selector failed: 5000ms exceeded")
              | _ => None
              end).

End Sim.

(** The credentials used in the runs. *)
Module Runs.

Definition EMAIL : string := "user@example.com".
Definition PASSWORD : string := "secret".

End Runs.

(** ** Vocabulary of the further statements *)

(** Code whose puppeteer calls all pass the test [P]. *)
Definition logs_only {W A} (P : Action -> bool) (m : M W A) : Prop :=
  forall s s' r,
    m s = (s', r) ->
    exists l, trace s' = (trace s ++ l)%list /\ forallb P l = true.

(** Starting the session: launching the browser, opening the page. *)
Definition starts_session (a : Action) : bool :=
  match a with
  | Launch _ _ | NewPage _ => true
  | _ => false
  end.

(** The calls the handlers make on the page, with the arguments the
    source fixes: navigation goes to the application root, the email goes
    into the email field and the password into the password field, only
    the two next-buttons are clicked by selector, and the keyboard types
    the title of the call, if it has one, and presses Enter. *)
Definition page_action (email password : string) (title : option string)
    (a : Action) : bool :=
  match a with
  | Launch _ _ | NewPage _ => false
  | Goto _ u wu => (u =? APP_URL) && (wu =? networkidle2)
  | WaitForSelector _ _ _ => true
  | TypeInto _ sel txt =>
      ((sel =? EMAIL_INPUT) && (txt =? email))
      || ((sel =? PASSWORD_INPUT) && (txt =? password))
  | Click _ sel => (sel =? "#identifierNext") || (sel =? "#passwordNext")
  | WaitForNavigation _ wu => (wu =? networkidle2)
  | QueryAll _ sel => (sel =? "button")
  | TextContentOf _ => true
  | ClickHandle _ => true
  | KeyboardType _ txt =>
      match title with
      | Some t => (txt =? t)
      | None => false
      end
  | KeyboardPress _ key => (key =? "Enter")
  | QueryAllTextContent _ sel => (sel =? NOTEBOOK_TITLE_SELECTOR)
  end.

(** The title a call carries: the one of a [create_notebook] call. *)
Definition title_of (request : CallToolRequest) : option string :=
  if (name request =? "create_notebook")%string
  then option_map title (arguments request)
  else None.


(** Making a logged call on the browser: the primitive of the environment
    that the call stands for, with what it hands back dropped. *)
Definition forget {W A} (x : W * Outcome A) : W * Outcome unit :=
  match x with
  | (w, Returned _) => (w, Returned tt)
  | (w, Thrown e) => (w, Thrown e)
  end.

Definition perform {W} (env : Env W) (a : Action) (w : W) : W * Outcome unit :=
  match a with
  | Launch headless args => forget (launch env headless args w)
  | NewPage b => forget (newPage env b w)
  | Goto p u wu => goto env p u wu w
  | WaitForSelector p sel t => waitForSelector env p sel t w
  | TypeInto p sel txt => typeInto env p sel txt w
  | Click p sel => click env p sel w
  | WaitForNavigation p wu => waitForNavigation env p wu w
  | QueryAll p sel => forget (queryAll env p sel w)
  | TextContentOf h => forget (textContentOf env h w)
  | ClickHandle h => clickHandle env h w
  | KeyboardType p txt => keyboardType env p txt w
  | KeyboardPress p key => keyboardPress env p key w
  | QueryAllTextContent p sel => forget (queryAllTextContent env p sel w)
  end.

(** Making the calls of [script] one after the other, each on the world
    the one before left, up to the first that throws: the world at the
    end, the calls that were made (the one that threw included) and the
    outcome. *)
Fixpoint perform_all {W} (env : Env W) (script : list Action) (w : W)
  : W * list Action * Outcome unit :=
  match script with
  | [] => (w, [], Returned tt)
  | a :: rest =>
      match perform env a w with
      | (w1, Returned _) =>
          match perform_all env rest w1 with
          | (w2, made, r) => (w2, a :: made, r)
          end
      | (w1, Thrown e) => (w1, [a], Thrown e)
      end
  end.




(** The names the catalog advertises. *)
Definition catalog_names : list string :=
  ["create_notebook"; "list_notebooks"; "open_notebooklm"].

(** Further simulated worlds. *)
Module Faults.

(** The DOM query of [listNotebooks] throws. *)
Definition query_fails : Sim.World :=
  Sim.mkWorld true "about:blank" [] []
    (fun a => match a with
              | QueryAllTextContent _ _ =>
                  Some (Js.new_Error "Execution context was destroyed")
              | _ => None
              end).

(** A site that does not accept the password: submitting the form leaves
    the browser on the sign-in page. *)
Definition rejecting : Env Sim.World := {|
  launch := launch Sim.env;
  newPage := newPage Sim.env;
  goto := goto Sim.env;
  url := url Sim.env;
  waitForSelector := waitForSelector Sim.env;
  typeInto := typeInto Sim.env;
  click := fun p sel => Sim.attempt (Click p sel) Sim.idle;
  waitForNavigation := waitForNavigation Sim.env;
  queryAll := queryAll Sim.env;
  textContentOf := textContentOf Sim.env;
  clickHandle := clickHandle Sim.env;
  keyboardType := keyboardType Sim.env;
  keyboardPress := keyboardPress Sim.env;
  queryAllTextContent := queryAllTextContent Sim.env
|}.

End Faults.

(** A browser that does nothing but keep a record of the calls it
    receives, in the order it receives them; it always shows the sign-in
    page. *)
Module Recorder.

Definition World : Type := list Action.

Definition note {A} (a : Action) (x : A) (w : World) : World * Outcome A :=
  ((w ++ [a])%list, Returned x).

Definition env : Env World := {|
  launch := fun h args => note (Launch h args) Sim.the_browser;
  newPage := fun b => note (NewPage b) Sim.the_page;
  goto := fun p u wu => note (Goto p u wu) tt;
  url := fun _ _ => Sim.SIGN_IN_URL;
  waitForSelector := fun p sel t => note (WaitForSelector p sel t) tt;
  typeInto := fun p sel txt => note (TypeInto p sel txt) tt;
  click := fun p sel => note (Click p sel) tt;
  waitForNavigation := fun p wu => note (WaitForNavigation p wu) tt;
  queryAll := fun p sel => note (QueryAll p sel) [];
  textContentOf := fun h => note (TextContentOf h) None;
  clickHandle := fun h => note (ClickHandle h) tt;
  keyboardType := fun p txt => note (KeyboardType p txt) tt;
  keyboardPress := fun p key => note (KeyboardPress p key) tt;
  queryAllTextContent := fun p sel => note (QueryAllTextContent p sel) []
|}.

(** The module state at the start, with nothing recorded yet. *)
Definition start : State World := mkState [] None None [].

End Recorder.

(** * Properties *)

(** ** Strings *)

Lemma prefix_split (p s : string) :
  prefix p s = true -> exists post, s = p ++ post.
Proof.
  revert s; induction p as [|a p IH]; intros s H.
  - exists s; reflexivity.
  - destruct s as [|b s]; simpl in H; [discriminate|].
    destruct (Ascii.ascii_dec a b) as [->|]; [|discriminate].
    destruct (IH s H) as [post ->]. exists post; reflexivity.
Qed.

Lemma prefix_append (p post : string) : prefix p (p ++ post) = true.
Proof.
  induction p as [|a p IH]; simpl.
  - destruct post; reflexivity.
  - destruct (Ascii.ascii_dec a a); [assumption|congruence].
Qed.

Lemma includes_unfold (s sub : string) :
  Js.includes s sub =
  if prefix sub s then true
  else match s with
       | EmptyString => false
       | String _ rest => Js.includes rest sub
       end.
Proof. destruct s; reflexivity. Qed.

Lemma includes_contains (s sub : string) :
  Js.includes s sub = true <-> Js.contains sub s.
Proof.
  split.
  - induction s as [|a s IH]; rewrite includes_unfold.
    + destruct (prefix sub EmptyString) eqn:E; [|discriminate].
      intros _. destruct (prefix_split _ _ E) as [post Hp].
      exists EmptyString, post; exact Hp.
    + destruct (prefix sub (String a s)) eqn:E.
      * intros _. destruct (prefix_split _ _ E) as [post Hp].
        exists EmptyString, post; exact Hp.
      * intros H. destruct (IH H) as (pre & post & ->).
        exists (String a pre), post; reflexivity.
  - intros (pre & post & ->).
    induction pre as [|a pre IH]; rewrite includes_unfold.
    + change (EmptyString ++ sub ++ post) with (sub ++ post).
      rewrite prefix_append; reflexivity.
    + destruct (prefix sub (String a pre ++ sub ++ post)); [reflexivity|exact IH].
Qed.

Lemma contains_middle (pre sub post : string) : Js.contains sub (pre ++ sub ++ post).
Proof. exists pre, post; reflexivity. Qed.

(** [trim] strips white space of one, two and three bytes at both ends and
    keeps what is inside. *)
Example trim_strips_both_ends :
  Js.trim (String "009" (" A b" ++ String "194" (String "160"
             (String "227" (String "128" (String "128" Js.nl))))))
  = "A b".
Proof. reflexivity. Qed.

Example trim_of_blank : Js.trim (" " ++ Js.nl ++ " ") = EmptyString.
Proof. reflexivity. Qed.

Example trimmed_texts_drops_null_and_blank :
  trimmed_texts [Some " A"; None; Some "  "; Some "B "; Some EmptyString]
  = ["A"; "B"].
Proof. reflexivity. Qed.

Example numbered_twelve :
  numbered ["a"; "b"; "c"; "d"; "e"; "f"; "g"; "h"; "i"; "j"; "k"; "l"]
  = Js.join Js.nl
      ["1. a"; "2. b"; "3. c"; "4. d"; "5. e"; "6. f"; "7. g"; "8. h";
       "9. i"; "10. j"; "11. k"; "12. l"].
Proof. reflexivity. Qed.

(** ** Running monadic code *)

Section MonadLaws.

Context {W : Type}.

Lemma bind_Returned {A B} (m : M W A) (k : A -> M W B) s s1 a :
  m s = (s1, Returned a) -> bind m k s = k a s1.
Proof. unfold bind; intros ->; reflexivity. Qed.

Lemma bind_Thrown {A B} (m : M W A) (k : A -> M W B) s s1 e :
  m s = (s1, Thrown e) -> bind m k s = (s1, Thrown e).
Proof. unfold bind; intros ->; reflexivity. Qed.

(** A run of [bind m k] that throws stopped in [m] or in [k]; one that
    returns went through both. *)
Lemma bind_inv {A B} (m : M W A) (k : A -> M W B) s s2 r :
  bind m k s = (s2, r) ->
  (exists e, m s = (s2, Thrown e) /\ r = Thrown e)
  \/ (exists s1 a, m s = (s1, Returned a) /\ k a s1 = (s2, r)).
Proof.
  unfold bind. destruct (m s) as [s1 [a|e]]; intros H.
  - right; exists s1, a; auto.
  - left; exists e; inversion H; auto.
Qed.

Lemma try_catch_Returned {A} (body : M W A) handler s s1 a :
  body s = (s1, Returned a) -> try_catch body handler s = (s1, Returned a).
Proof. unfold try_catch; intros ->; reflexivity. Qed.

Lemma try_catch_Thrown {A} (body : M W A) handler s s1 e :
  body s = (s1, Thrown e) -> try_catch body handler s = handler e s1.
Proof. unfold try_catch; intros ->; reflexivity. Qed.

(** *** Code that leaves the module variables alone *)

Lemma keeps_ret {A} (a : A) : keeps_module (@ret W A a).
Proof. intros s s' r H; inversion H; auto. Qed.

Lemma keeps_throw {A} e : keeps_module (@throw W A e).
Proof. intros s s' r H; inversion H; auto. Qed.

Lemma keeps_bind {A B} (m : M W A) (k : A -> M W B) :
  keeps_module m -> (forall a, keeps_module (k a)) -> keeps_module (bind m k).
Proof.
  intros Hm Hk s s' r H.
  destruct (bind_inv _ _ _ _ _ H) as [(e & H1 & _)|(s1 & a & H1 & H2)].
  - eapply Hm; eauto.
  - destruct (Hm _ _ _ H1) as [E1 E2]. destruct (Hk _ _ _ _ H2) as [E3 E4].
    split; congruence.
Qed.

Lemma keeps_try_catch {A} (body : M W A) handler :
  keeps_module body -> (forall e, keeps_module (handler e)) ->
  keeps_module (try_catch body handler).
Proof.
  intros Hb Hh s s' r. unfold try_catch.
  destruct (body s) as [s1 [a|e]] eqn:E; intros H.
  - inversion H; subst. eapply Hb; eauto.
  - destruct (Hb _ _ _ E) as [E1 E2]. destruct (Hh _ _ _ _ H) as [E3 E4].
    split; congruence.
Qed.

Lemma keeps_await {A} a (f : W -> W * Outcome A) : keeps_module (await a f).
Proof.
  intros s s' r. unfold await. destruct (f (world s)); intros H.
  inversion H; auto.
Qed.

Lemma keeps_on_page {A} p prop (k : Page -> M W A) :
  (forall pg, keeps_module (k pg)) -> keeps_module (on_page p prop k).
Proof. intros Hk. destruct p; simpl; [apply Hk|apply keeps_throw]. Qed.

End MonadLaws.

(** Syntax-directed proof that a piece of code keeps the module variables. *)
Ltac keeps_module_tac :=
  repeat match goal with
    | |- keeps_module (bind _ _) => apply keeps_bind
    | |- keeps_module (try_catch _ _) => apply keeps_try_catch
    | |- keeps_module (on_page _ _ _) => apply keeps_on_page
    | |- keeps_module (await _ _) => apply keeps_await
    | |- keeps_module (ret _) => apply keeps_ret
    | |- keeps_module (throw _) => apply keeps_throw
    | |- keeps_module (fun s => (s, _)) =>
        let H := fresh in intros ? ? ? H; inversion H; auto
    | |- keeps_module (if ?b then _ else _) => destruct b
    | |- keeps_module (match ?x with _ => _ end) => destruct x
    | |- forall _, _ => intro
    end.

(** One step of a run recorded in hypothesis [H]: case analysis on the
    outcome of the next puppeteer call. *)
Ltac next_call H :=
  match type of H with
  | context [goto ?e ?p ?u ?o ?w] =>
      destruct (goto e p u o w) as [? [[]|?]] eqn:?
  | context [waitForSelector ?e ?p ?x ?t ?w] =>
      destruct (waitForSelector e p x t w) as [? [[]|?]] eqn:?
  | context [typeInto ?e ?p ?x ?t ?w] =>
      destruct (typeInto e p x t w) as [? [[]|?]] eqn:?
  | context [click ?e ?p ?x ?w] =>
      destruct (click e p x w) as [? [[]|?]] eqn:?
  | context [waitForNavigation ?e ?p ?o ?w] =>
      destruct (waitForNavigation e p o w) as [? [[]|?]] eqn:?
  | context [keyboardType ?e ?p ?t ?w] =>
      destruct (keyboardType e p t w) as [? [[]|?]] eqn:?
  | context [keyboardPress ?e ?p ?t ?w] =>
      destruct (keyboardPress e p t w) as [? [[]|?]] eqn:?
  | context [clickHandle ?e ?h ?w] =>
      destruct (clickHandle e h w) as [? [[]|?]] eqn:?
  | context [queryAll ?e ?p ?x ?w] =>
      destruct (queryAll e p x w) as [? [?|?]] eqn:?
  | context [textContentOf ?e ?h ?w] =>
      destruct (textContentOf e h w) as [? [?|?]] eqn:?
  | context [queryAllTextContent ?e ?p ?x ?w] =>
      destruct (queryAllTextContent e p x w) as [? [?|?]] eqn:?
  end;
  cbn [world browser page trace] in H.

Section Properties.

Context {W : Type} (env : Env W).
Context (GOOGLE_EMAIL GOOGLE_PASSWORD : string).

#[local] Abbreviation initBrowser := (initBrowser env).
#[local] Abbreviation loginToGoogle := (loginToGoogle env GOOGLE_EMAIL GOOGLE_PASSWORD).
#[local] Abbreviation createNotebook := (createNotebook env GOOGLE_EMAIL GOOGLE_PASSWORD).
#[local] Abbreviation listNotebooks := (listNotebooks env GOOGLE_EMAIL GOOGLE_PASSWORD).
#[local] Abbreviation callToolHandler := (callToolHandler env GOOGLE_EMAIL GOOGLE_PASSWORD).
#[local] Abbreviation enter_app := (enter_app env GOOGLE_EMAIL GOOGLE_PASSWORD).

(** ** The session *)

(** With a browser in hand nothing is started and [page] is handed out. *)
Lemma initBrowser_open (s : State W) b :
  browser s = Some b -> initBrowser s = (s, Returned (page s)).
Proof.
  intros Hb. unfold initBrowser, bind, get_browser, get_page, ret.
  rewrite Hb. reflexivity.
Qed.

(** Without one, the browser is launched and a page opened, in that order;
    [browser] is assigned as soon as the launch has returned. *)
Lemma initBrowser_closed (s : State W) :
  browser s = None ->
  initBrowser s =
  match launch env false LAUNCH_ARGS (world s) with
  | (w1, Thrown e) =>
      (mkState w1 None (page s) (trace s ++ [Launch false LAUNCH_ARGS])%list, Thrown e)
  | (w1, Returned b) =>
      let log := ((trace s ++ [Launch false LAUNCH_ARGS]) ++ [NewPage b])%list in
      match newPage env b w1 with
      | (w2, Thrown e) => (mkState w2 (Some b) (page s) log, Thrown e)
      | (w2, Returned p) => (mkState w2 (Some b) (Some p) log, Returned (Some p))
      end
  end.
Proof.
  intros Hb.
  unfold initBrowser, bind, get_browser, get_page, set_browser,
    set_page, await, ret.
  rewrite Hb.
  destruct (launch env false _ (world s)) as [w1 [b|e]]; simpl; rewrite ?Hb;
    [|reflexivity].
  destruct (newPage env b w1) as [w2 [p|e]]; reflexivity.
Qed.


(** ** The protocol adapter *)

(** C8.  The catalog answered by the list-tools handler holds the three
    tools [create_notebook], [list_notebooks] and [open_notebooklm], in
    that order and nothing else; [create_notebook] declares the single
    field [title], of type string and required; the other two declare no
    field and require none. *)
Theorem tool_catalog (s : State W) :
  exists r,
    listToolsHandler s = (s, Returned r)
    /\ map tool_name (tools r) = ["create_notebook"; "list_notebooks"; "open_notebooklm"]
    /\ forall t, In t (tools r) ->
         (tool_name t = "create_notebook"
          /\ map (fun f => (fst f, property_type (snd f))) (properties (inputSchema t))
             = [("title", "string")]
          /\ required (inputSchema t) = Some ["title"])
         \/ (tool_name t <> "create_notebook"
             /\ properties (inputSchema t) = []
             /\ required (inputSchema t) = None).
Proof.
  eexists. split; [reflexivity|]. split; [reflexivity|].
  intros t [<-|[<-|[<-|[]]]]; simpl.
  - left; auto.
  - right; repeat split; discriminate.
  - right; repeat split; discriminate.
Qed.

(** C6.  A call whose tool name is none of the three makes the dispatcher
    throw: it never returns a response envelope, and it touches neither
    the browser nor the module state on the way. *)
Theorem unknown_tool_throws (request : CallToolRequest) (s : State W) :
  name request <> "create_notebook" ->
  name request <> "list_notebooks" ->
  name request <> "open_notebooklm" ->
  callToolHandler request s = (s, Thrown unsupported_tool).
Proof.
  intros H1 H2 H3. unfold callToolHandler.
  apply String.eqb_neq in H1, H2, H3. rewrite H1, H2, H3. reflexivity.
Qed.

(** C7.  [open_notebooklm] obtains the page, ensures the login and then
    answers with a response of one content item of type text whose text
    is the fixed confirmation; what [initBrowser] or [loginToGoogle]
    throws is thrown on to the caller unchanged. *)
Theorem open_notebooklm_fixed_text_or_propagates
    (request : CallToolRequest) (s s1 : State W) (r1 : Outcome (option Page)) :
  name request = "open_notebooklm" ->
  initBrowser s = (s1, r1) ->
  match r1 with
  | Thrown e => callToolHandler request s = (s1, Thrown e)
  | Returned p =>
      forall s2 r2,
        loginToGoogle p s1 = (s2, r2) ->
        callToolHandler request s =
        (s2, match r2 with
             | Thrown e => Thrown e
             | Returned _ =>
                 Returned
                   (mkResult
                      [mkContent "text" "NotebookLM을 브라우저에서 열었습니다."])
             end)
  end.
Proof.
  intros Hn H. unfold callToolHandler. rewrite Hn. simpl.
  destruct r1 as [p|e].
  - intros s2 r2 H2. rewrite (bind_Returned _ _ _ _ _ H).
    destruct r2 as [u|e].
    + rewrite (bind_Returned _ _ _ _ _ H2). reflexivity.
    + rewrite (bind_Thrown _ _ _ _ _ H2). reflexivity.
  - apply bind_Thrown. exact H.
Qed.

(** ** The authenticator *)

Lemma loginToGoogle_keeps p : keeps_module (loginToGoogle p).
Proof.
  unfold loginToGoogle, page_goto, page_url, page_waitForSelector,
    page_type, page_click, page_waitForNavigation.
  keeps_module_tac.
Qed.

(** C2.  When the navigation of line 30 returns and the URL read after it
    holds the application's domain and not the sign-in domain,
    [loginToGoogle] returns at once: the navigation is the only call it
    makes, so nothing is waited for, typed or clicked, and the world is the
    one that navigation left. *)
Theorem loginToGoogle_skips_when_signed_in (pg : Page) (s : State W) (w1 : W) :
  goto env pg APP_URL networkidle2 (world s) = (w1, Returned tt) ->
  Js.includes (url env pg w1) "notebooklm.google.com" = true ->
  Js.includes (url env pg w1) "accounts.google.com" = false ->
  loginToGoogle (Some pg) s =
  (mkState w1 (browser s) (page s)
     (trace s ++ [Goto pg APP_URL networkidle2])%list,
   Returned tt).
Proof.
  intros Hgoto Happ Hacc.
  unfold loginToGoogle, page_goto, page_url, on_page, bind, await, ret.
  rewrite Hgoto. cbn [world]. rewrite Happ. cbn [world]. rewrite Hacc.
  reflexivity.
Qed.

(** C5.  On the login path -- the navigation of line 30 returned and the
    URL read after it fails the test of line 33 -- [loginToGoogle] makes
    these calls on the browser, in this order, each on the world the one
    before left, and stops at the first that throws: wait for the email
    field, type the account identifier into it, click [#identifierNext],
    wait for the password field, type the secret into it, click
    [#passwordNext], wait for the navigation.  The state it leaves is the
    one those calls of the environment produce, its outcome is theirs,
    and the calls logged are the ones made.  When it returns, all of them
    were made, and apart from the two waits for a field they are exactly:
    type email, click next, type password, click next, wait for the
    navigation. *)
Theorem loginToGoogle_login_sequence
    (pg : Page) (s : State W) (w1 w' : W) (made : list Action)
    (r : Outcome unit) :
  goto env pg APP_URL networkidle2 (world s) = (w1, Returned tt) ->
  already_signed_in (url env pg w1) = false ->
  perform_all env (login_script pg GOOGLE_EMAIL GOOGLE_PASSWORD) w1
  = (w', made, r) ->
  loginToGoogle (Some pg) s =
  (mkState w' (browser s) (page s)
     (trace s ++ Goto pg APP_URL networkidle2 :: made)%list,
   r)
  /\ (exists k, made = firstn k (login_script pg GOOGLE_EMAIL GOOGLE_PASSWORD))
  /\ (forall u, r = Returned u ->
      made = login_script pg GOOGLE_EMAIL GOOGLE_PASSWORD
      /\ filter (fun a => negb (is_selector_wait a)) made
         = [ TypeInto pg EMAIL_INPUT GOOGLE_EMAIL;
             Click pg "#identifierNext";
             TypeInto pg PASSWORD_INPUT GOOGLE_PASSWORD;
             Click pg "#passwordNext";
             WaitForNavigation pg networkidle2 ]).
Proof.
  intros Hgoto Hskip Hperf.
  unfold login_script in Hperf. cbn [perform_all perform] in Hperf.
  unfold loginToGoogle, page_goto, page_url, page_waitForSelector,
    page_type, page_click, page_waitForNavigation, on_page, bind, await, ret.
  rewrite Hgoto. cbn [world browser page trace].
  unfold already_signed_in in Hskip.
  destruct (Js.includes (url env pg w1) "notebooklm.google.com") eqn:Happ;
    cbn [world browser page trace andb] in Hskip |- *;
    try rewrite Hskip; cbn [world browser page trace].
  all: repeat (next_call Hperf; cbn [world browser page trace]).
  all: inversion Hperf; subst; clear Hperf;
    (split; [rewrite <- ?app_assoc; reflexivity|]);
    (split;
     [ first [ exists 0; reflexivity | exists 1; reflexivity
             | exists 2; reflexivity | exists 3; reflexivity
             | exists 4; reflexivity | exists 5; reflexivity
             | exists 6; reflexivity | exists 7; reflexivity ]
     | intros u Hu; first [discriminate Hu | split; reflexivity] ]).
Qed.

(** ** Creating a notebook *)

(** [createNotebook] is its three opening statements followed by the
    [try] block; only the latter is under the [catch]. *)
Lemma createNotebook_unfold (title : string) (s : State W) :
  createNotebook title s =
  match enter_app s with
  | (s1, Returned p) =>
      try_catch (createNotebook_try env p title)
                (fun e => ret (create_error_message e)) s1
  | (s1, Thrown e) => (s1, Thrown e)
  end.
Proof.
  unfold createNotebook, enter_app, bind, ret.
  destruct (initBrowser s) as [s0 [p|e]]; [|reflexivity].
  destruct (loginToGoogle p s0) as [s1 [u|e]]; [|reflexivity].
  destruct (page_goto env p APP_URL networkidle2 s1) as [s2 [u'|e]]; reflexivity.
Qed.

(** When the [try] block runs to its end, what it returns is the success
    message. *)
Lemma createNotebook_try_value p title (s s' : State W) msg :
  createNotebook_try env p title s = (s', Returned msg) ->
  msg = created_message title.
Proof.
  unfold createNotebook_try. intros H.
  repeat (apply bind_inv in H;
          destruct H as [(e & _ & Hr)|(? & ? & _ & H)]; [discriminate Hr|]).
  inversion H; reflexivity.
Qed.

Lemma created_message_contains_title title :
  Js.contains title (created_message title).
Proof.
  exists ("노트북 " ++ Js.dq), (Js.dq ++ " 생성 완료!"). reflexivity.
Qed.

Lemma create_error_message_contains_error e :
  Js.contains (Js.toString e) (create_error_message e).
Proof. apply contains_middle. Qed.

(** A scan that finds the label on no button reads every text, clicks
    nothing and falls out of the loop. *)
Lemma scan_without_match_run (bs : list ElementHandle) :
  forall (s : State W) (w' : W),
    scan_without_match env bs (world s) = Some w' ->
    click_first_new_notebook env bs s =
    (mkState w' (browser s) (page s) (trace s ++ map TextContentOf bs)%list,
     Returned tt).
Proof.
  induction bs as [|btn rest IH]; intros s w' H; simpl in *.
  - inversion H; subst. rewrite app_nil_r. destruct s; reflexivity.
  - unfold bind, handle_textContent, await.
    destruct (textContentOf env btn (world s)) as [w1 [txt|e]]; [|discriminate].
    destruct (is_new_notebook txt); [discriminate|].
    rewrite (IH (mkState w1 (browser s) (page s) (trace s ++ [TextContentOf btn])%list) w' H).
    cbn [world browser page trace]. rewrite <- app_assoc. reflexivity.
Qed.

Lemma no_click_in_text_reads (bs : list ElementHandle) :
  forallb (fun a => negb (is_click a)) (map TextContentOf bs) = true.
Proof. induction bs; simpl; auto. Qed.

(** C1, as the code has it.  The [catch] of [createNotebook] covers the
    [try] block of lines 56-72 and nothing before it.  What is thrown while
    the page is obtained, the login ensured or the application opened
    (lines 50-53) leaves [createNotebook] as it was thrown.  Once those
    three statements have returned, [createNotebook] never throws: either
    the block ran to its end and the answer is the success message, which
    holds the title as a substring, or a call inside the block threw and
    the answer is the failure message, which holds the text of what was
    thrown. *)
Theorem createNotebook_catches_inside_try
    (title : string) (s s1 : State W) (r : Outcome (option Page)) :
  enter_app s = (s1, r) ->
  match r with
  | Thrown e => createNotebook title s = (s1, Thrown e)
  | Returned p =>
      exists s2 msg,
        createNotebook title s = (s2, Returned msg)
        /\ ((createNotebook_try env p title s1 = (s2, Returned msg)
             /\ msg = created_message title
             /\ Js.contains title msg)
            \/ (exists e,
                  createNotebook_try env p title s1 = (s2, Thrown e)
                  /\ msg = create_error_message e
                  /\ Js.contains (Js.toString e) msg))
  end.
Proof.
  intros H. rewrite createNotebook_unfold, H.
  destruct r as [p|e]; [|reflexivity].
  unfold try_catch, ret.
  destruct (createNotebook_try env p title s1) as [s2 [msg|e]] eqn:E.
  - exists s2, msg. split; [reflexivity|]. left.
    pose proof (createNotebook_try_value _ _ _ _ _ E) as ->.
    auto using created_message_contains_title.
  - exists s2, (create_error_message e). split; [reflexivity|]. right.
    exists e. auto using create_error_message_contains_error.
Qed.

(** C9.  When the two opening calls of the [try] block return and the scan
    finds the label on no button, [createNotebook] clicks nothing, goes on
    to wait for the title input all the same, and never throws; when that
    wait and the two keyboard calls return as well, the title was typed,
    Enter pressed, and the answer is the success message with the title
    in it. *)
Theorem createNotebook_without_new_notebook_button
    (title : string) (s s1 : State W) (pg : Page) (w2 w3 w4 : W)
    (bs : list ElementHandle) :
  enter_app s = (s1, Returned (Some pg)) ->
  waitForSelector env pg NEW_NOTEBOOK_SELECTOR 8000%N (world s1) = (w2, Returned tt) ->
  queryAll env pg "button" w2 = (w3, Returned bs) ->
  scan_without_match env bs w3 = Some w4 ->
  exists s' msg tail,
    let log :=
      ([WaitForSelector pg NEW_NOTEBOOK_SELECTOR 8000%N; QueryAll pg "button"]
       ++ map TextContentOf bs
       ++ WaitForSelector pg TITLE_INPUT_SELECTOR 5000%N :: tail)%list in
    createNotebook title s = (s', Returned msg)
    /\ trace s' = (trace s1 ++ log)%list
    /\ forallb (fun a => negb (is_click a)) log = true
    /\ (exists k, tail = firstn k [KeyboardType pg title; KeyboardPress pg "Enter"])
    /\ (forall w5 w6 w7,
          waitForSelector env pg TITLE_INPUT_SELECTOR 5000%N w4 = (w5, Returned tt) ->
          keyboardType env pg title w5 = (w6, Returned tt) ->
          keyboardPress env pg "Enter" w6 = (w7, Returned tt) ->
          world s' = w7
          /\ tail = [KeyboardType pg title; KeyboardPress pg "Enter"]
          /\ msg = created_message title
          /\ Js.contains title msg).
Proof.
  intros Henter Hwait Hquery Hscan.
  rewrite createNotebook_unfold, Henter.
  unfold try_catch, createNotebook_try, page_waitForSelector, page_queryAll,
    keyboard_type, keyboard_press, on_page.
  unfold bind at 1, await at 1. rewrite Hwait. cbn [world browser page trace].
  unfold bind at 1, await at 1. cbn [world]. rewrite Hquery.
  cbn [world browser page trace].
  unfold bind at 1.
  match goal with
  | |- context [click_first_new_notebook env bs ?st] =>
      rewrite (scan_without_match_run bs st w4 Hscan)
  end.
  cbn [world browser page trace].
  unfold bind, await, ret. cbn [world browser page trace].
  destruct (waitForSelector env pg TITLE_INPUT_SELECTOR 5000%N w4)
    as [w5 [[]|e5]] eqn:E5; cbn [world browser page trace].
  2:{ eexists _, _, []. cbn zeta.
      split; [reflexivity|]. cbn [trace].
      split; [rewrite <- !app_assoc; reflexivity|].
      split; [cbn; rewrite forallb_app, no_click_in_text_reads; reflexivity|].
      split; [exists 0; reflexivity|]. intros ? ? ? Hc; discriminate Hc. }
  destruct (keyboardType env pg title w5) as [w6 [[]|e6]] eqn:E6;
    cbn [world browser page trace].
  2:{ eexists _, _, [KeyboardType pg title]. cbn zeta.
      split; [reflexivity|]. cbn [trace].
      split; [rewrite <- !app_assoc; reflexivity|].
      split; [cbn; rewrite forallb_app, no_click_in_text_reads; reflexivity|].
      split; [exists 1; reflexivity|].
      intros ? ? ? Hc Hc'. inversion Hc; subst. rewrite E6 in Hc'. discriminate Hc'. }
  destruct (keyboardPress env pg "Enter" w6) as [w7 [[]|e7]] eqn:E7;
    cbn [world browser page trace].
  2:{ eexists _, _, [KeyboardType pg title; KeyboardPress pg "Enter"]. cbn zeta.
      split; [reflexivity|]. cbn [trace].
      split; [rewrite <- !app_assoc; reflexivity|].
      split; [cbn; rewrite forallb_app, no_click_in_text_reads; reflexivity|].
      split; [exists 2; reflexivity|].
      intros ? ? ? Hc Hc' Hc''. inversion Hc; subst. rewrite E6 in Hc'.
      inversion Hc'; subst. rewrite E7 in Hc''. discriminate Hc''. }
  eexists _, _, [KeyboardType pg title; KeyboardPress pg "Enter"]. cbn zeta.
  split; [reflexivity|]. cbn [trace].
  split; [rewrite <- !app_assoc; reflexivity|].
  split; [cbn; rewrite forallb_app, no_click_in_text_reads; reflexivity|].
  split; [exists 2; reflexivity|].
  intros ? ? ? Hc Hc' Hc''. inversion Hc; subst. rewrite E6 in Hc'.
  inversion Hc'; subst. rewrite E7 in Hc''. inversion Hc''; subst.
  cbn [world]. auto using created_message_contains_title.
Qed.

(** ** Listing the notebooks *)

Lemma listNotebooks_unfold (s : State W) :
  listNotebooks s =
  match enter_app s with
  | (s1, Returned p) =>
      try_catch (listNotebooks_try env p)
                (fun e => ret (list_error_message e)) s1
  | (s1, Thrown e) => (s1, Thrown e)
  end.
Proof.
  unfold listNotebooks, enter_app, bind, ret.
  destruct (initBrowser s) as [s0 [p|e]]; [|reflexivity].
  destruct (loginToGoogle p s0) as [s1 [u|e]]; [|reflexivity].
  destruct (page_goto env p APP_URL networkidle2 s1) as [s2 [u'|e]]; reflexivity.
Qed.

(** C3.  Once the application is open and the DOM query has returned the
    texts [els], [listNotebooks] answers from the texts that are left
    after trimming and dropping the empty ones: the empty-state message
    when none is left; the header line followed by the numbered list
    otherwise, which for the three texts A, B, C is the three lines
    "1. A", "2. B", "3. C" joined by line feeds. *)
Theorem listNotebooks_numbered_list
    (s s1 : State W) (pg : Page) (w2 : W) (els : list (option string)) :
  enter_app s = (s1, Returned (Some pg)) ->
  queryAllTextContent env pg NOTEBOOK_TITLE_SELECTOR (world s1) = (w2, Returned els) ->
  exists s2 msg,
    listNotebooks s = (s2, Returned msg)
    /\ (trimmed_texts els = [] -> msg = empty_list_message)
    /\ (trimmed_texts els <> [] -> msg = list_header ++ numbered (trimmed_texts els))
    /\ (trimmed_texts els = ["A"; "B"; "C"] ->
        msg = list_header ++ ("1. A" ++ Js.nl ++ "2. B" ++ Js.nl ++ "3. C")).
Proof.
  intros Henter Hquery. rewrite listNotebooks_unfold, Henter.
  unfold try_catch, listNotebooks_try, page_evalAll, on_page, bind, await, ret.
  rewrite Hquery. cbn [world browser page trace].
  destruct (trimmed_texts els) as [|n ns] eqn:E; cbn [length Nat.eqb].
  - eexists _, _. split; [reflexivity|].
    repeat split; [congruence|discriminate].
  - eexists _, _. split; [reflexivity|].
    repeat split; [discriminate|].
    intros H; inversion H; reflexivity.
Qed.

(** ** The invariant of the module variables *)

Lemma click_first_new_notebook_keeps bs :
  keeps_module (click_first_new_notebook env bs).
Proof.
  induction bs as [|btn rest IH]; simpl.
  - apply keeps_ret.
  - unfold handle_textContent, handle_click. keeps_module_tac. exact IH.
Qed.

Lemma createNotebook_try_keeps p title :
  keeps_module (createNotebook_try env p title).
Proof.
  unfold createNotebook_try, page_waitForSelector, page_queryAll,
    keyboard_type, keyboard_press.
  keeps_module_tac. apply click_first_new_notebook_keeps.
Qed.

Lemma listNotebooks_try_keeps p : keeps_module (listNotebooks_try env p).
Proof. unfold listNotebooks_try, page_evalAll. keeps_module_tac. Qed.

Lemma page_goto_keeps p u o : keeps_module (page_goto env p u o).
Proof. unfold page_goto. keeps_module_tac. Qed.

(** What [initBrowser] does to the invariant. *)
Lemma initBrowser_session (s s' : State W) (r : Outcome (option Page)) :
  session_ok s ->
  initBrowser s = (s', r) ->
  match r with
  | Returned p => p <> None /\ session_ok s'
  | Thrown _ => session_ok s' \/ page_creation_failed env s s' r
  end.
Proof.
  intros Hok H. destruct (browser s) as [b|] eqn:Hb.
  - rewrite (initBrowser_open s b Hb) in H. inversion H; subst.
    split; [|exact Hok]. apply Hok. congruence.
  - rewrite (initBrowser_closed s Hb) in H.
    destruct (launch env false LAUNCH_ARGS (world s)) as [w1 [b|e]] eqn:El.
    + cbv zeta in H.
      destruct (newPage env b w1) as [w2 [pg|e]] eqn:En; inversion H; subst.
      * split; [discriminate|]. intros _; discriminate.
      * right. exists b, w1, w2, e. repeat split; auto.
    + inversion H; subst. left. intros Hn; elim Hn; reflexivity.
Qed.

(** The invariant goes through code that starts with a step that keeps it
    (or fails to open the page) and goes on without touching the module
    variables. *)
Lemma session_bind {A B} (m : M W A) (k : A -> M W B) (s : State W) :
  (forall s' r, m s = (s', r) -> session_ok s' \/ page_creation_failed env s s' r) ->
  (forall a, keeps_module (k a)) ->
  forall s' r, bind m k s = (s', r) ->
    session_ok s' \/ page_creation_failed env s s' r.
Proof.
  intros Hm Hk s' r H.
  destruct (bind_inv _ _ _ _ _ H) as [(e & H1 & ->)|(s1 & a & H1 & H2)].
  - destruct (Hm _ _ H1) as [Hok|(b & w1 & w2 & e' & F)]; [left; exact Hok|].
    right. exists b, w1, w2, e'.
    destruct F as (F1 & F2 & F3 & F4 & F5 & F6 & F7).
    inversion F4; subst. repeat split; assumption.
  - destruct (Hm _ _ H1) as [Hok|(b & w1 & w2 & e' & _ & _ & _ & F & _)];
      [|discriminate F].
    left. destruct (Hk a _ _ _ H2) as [E1 E2].
    unfold session_ok in *. rewrite E1, E2. exact Hok.
Qed.

Lemma initBrowser_session_step (s : State W) :
  session_ok s ->
  forall s' r, initBrowser s = (s', r) ->
    session_ok s' \/ page_creation_failed env s s' r.
Proof.
  intros Hok s' r H. pose proof (initBrowser_session s s' r Hok H) as Hs.
  destruct r; [left; apply Hs|exact Hs].
Qed.

(** C10.  From a state where a browser comes with a page, [initBrowser]
    never returns [null], and every operation of the server leaves the
    module variables in such a state again -- with one exception: the call
    that launched the browser and then saw the opening of the page throw.
    That call leaves [browser] set and [page] as it was, and [initBrowser]
    then returns that old [page] without assigning it. *)
Theorem session_invariant (s : State W) :
  session_ok s ->
  (forall s' p, initBrowser s = (s', Returned p) -> p <> None /\ session_ok s')
  /\ (forall request s' r,
        callToolHandler request s = (s', r) ->
        session_ok s' \/ page_creation_failed env s s' r)
  /\ (forall s' r, listToolsHandler s = (s', r) -> session_ok s').
Proof.
  intros Hok. split; [|split].
  - intros s' p H. exact (initBrowser_session s s' (Returned p) Hok H).
  - intros request s' r. unfold callToolHandler.
    destruct (name request =? "create_notebook")%string;
      [|destruct (name request =? "list_notebooks")%string;
        [|destruct (name request =? "open_notebooklm")%string]].
    + destruct (arguments request) as [a|].
      * unfold bind at 1, ret at 1.
        apply session_bind; [|intros; apply keeps_ret].
        unfold createNotebook.
        apply session_bind; [apply initBrowser_session_step; exact Hok|].
        intros p. keeps_module_tac;
          auto using loginToGoogle_keeps, page_goto_keeps, createNotebook_try_keeps.
      * unfold bind, throw. intros H; inversion H; subst. left; exact Hok.
    + apply session_bind; [|intros; apply keeps_ret].
      unfold listNotebooks.
      apply session_bind; [apply initBrowser_session_step; exact Hok|].
      intros p. keeps_module_tac;
        auto using loginToGoogle_keeps, page_goto_keeps, listNotebooks_try_keeps.
    + apply session_bind; [apply initBrowser_session_step; exact Hok|].
      intros p. keeps_module_tac; auto using loginToGoogle_keeps.
    + unfold throw. intros H; inversion H; subst. left; exact Hok.
  - intros s' r H. unfold listToolsHandler, ret in H. inversion H; subst.
    exact Hok.
Qed.

End Properties.

(** * Runs on the simulated browser *)

(** [computed t as H] runs the closed term [t] and records its value as
    the equation [H : t = value]. *)
Tactic Notation "computed" constr(t) "as" ident(H) :=
  let v := eval vm_compute in t in
  assert (H : t = v) by (vm_compute; reflexivity).

(** C1, as stated, fails: a browser that cannot be launched makes
    [createNotebook] throw the launch error instead of returning a failure
    message. *)
Lemma createNotebook_launch_error_escapes :
  let e := Js.new_Error "Failed to launch the browser process!" in
  let run := createNotebook Sim.env Runs.EMAIL Runs.PASSWORD "My Notes"
               (Sim.start Sim.launch_fails) in
  launch Sim.env false LAUNCH_ARGS Sim.launch_fails = (Sim.launch_fails, Thrown e)
  /\ snd run = Thrown e
  /\ (forall msg, snd run <> Returned msg).
Proof.
  cbv zeta. split; [reflexivity|].
  split; [vm_compute; reflexivity|].
  intros msg H. vm_compute in H. discriminate H.
Qed.

(** The same with a navigation that times out: the [goto] of line 30,
    inside [loginToGoogle], is outside the [try] block as well. *)
Example createNotebook_navigation_error_escapes :
  snd (createNotebook Sim.env Runs.EMAIL Runs.PASSWORD "My Notes"
         (Sim.start Sim.goto_fails))
  = Thrown (Js.mkError "TimeoutError" "Navigation timeout of 30000 ms exceeded").
Proof. vm_compute. reflexivity. Qed.

(** Inside the [try] block the time-out is caught and reported. *)
Lemma createNotebook_catches_inside_try_witness :
  exists s2,
    createNotebook Sim.env Runs.EMAIL Runs.PASSWORD "My Notes"
      (Sim.start Sim.title_input_missing)
    = (s2, Returned
             ("노트북 생성 중 오류 발생: "
              ++ "TimeoutError: Waiting for selector failed: 5000ms exceeded"
              ++ ". NotebookLM 페이지를 직접 확인해주세요.")).
Proof.
  computed (enter_app Sim.env Runs.EMAIL Runs.PASSWORD
              (Sim.start Sim.title_input_missing)) as Henter.
  destruct (createNotebook_catches_inside_try Sim.env Runs.EMAIL Runs.PASSWORD
              "My Notes" _ _ _ Henter)
    as (s2 & msg & Hrun & [(Htry & _)|(e & Htry & Hmsg & _)]).
  - vm_compute in Htry. discriminate Htry.
  - exists s2. rewrite Hrun, Hmsg. vm_compute in Htry.
    inversion Htry; subst. reflexivity.
Defined.

Lemma loginToGoogle_skips_when_signed_in_witness :
  trace (fst (loginToGoogle Sim.env Runs.EMAIL Runs.PASSWORD (Some Sim.the_page)
                (Sim.start Sim.signed_in_bare)))
  = [Goto Sim.the_page APP_URL networkidle2].
Proof.
  computed (goto Sim.env Sim.the_page APP_URL networkidle2
              (world (Sim.start Sim.signed_in_bare))) as Hgoto.
  rewrite (loginToGoogle_skips_when_signed_in Sim.env Runs.EMAIL Runs.PASSWORD
             Sim.the_page (Sim.start Sim.signed_in_bare) _
             Hgoto eq_refl eq_refl).
  reflexivity.
Defined.

Lemma listNotebooks_numbered_list_witness :
  snd (listNotebooks Sim.env Runs.EMAIL Runs.PASSWORD (Sim.start Sim.signed_out))
  = Returned ("노트북 목록:" ++ Js.nl ++ "1. A" ++ Js.nl ++ "2. B" ++ Js.nl ++ "3. C")
  /\ snd (listNotebooks Sim.env Runs.EMAIL Runs.PASSWORD (Sim.start Sim.signed_in_bare))
     = Returned empty_list_message.
Proof.
  split.
  - computed (enter_app Sim.env Runs.EMAIL Runs.PASSWORD
                (Sim.start Sim.signed_out)) as Henter.
    match type of Henter with
    | _ = (?s1, _) =>
        computed (queryAllTextContent Sim.env Sim.the_page
                    NOTEBOOK_TITLE_SELECTOR (world s1)) as Hquery
    end.
    destruct (listNotebooks_numbered_list Sim.env Runs.EMAIL Runs.PASSWORD
                _ _ _ _ _ Henter Hquery)
      as (s2 & msg & Hrun & _ & _ & Habc).
    rewrite Hrun, (Habc eq_refl). reflexivity.
  - computed (enter_app Sim.env Runs.EMAIL Runs.PASSWORD
                (Sim.start Sim.signed_in_bare)) as Henter.
    match type of Henter with
    | _ = (?s1, _) =>
        computed (queryAllTextContent Sim.env Sim.the_page
                    NOTEBOOK_TITLE_SELECTOR (world s1)) as Hquery
    end.
    destruct (listNotebooks_numbered_list Sim.env Runs.EMAIL Runs.PASSWORD
                _ _ _ _ _ Henter Hquery)
      as (s2 & msg & Hrun & Hempty & _).
    rewrite Hrun, (Hempty eq_refl). reflexivity.
Defined.


(** On the recording browser: what the site received is the form
    filling, in order and with the credentials in their fields. *)
Lemma loginToGoogle_login_sequence_witness :
  let calls :=
    [ Goto Sim.the_page APP_URL networkidle2;
      WaitForSelector Sim.the_page EMAIL_INPUT 10000%N;
      TypeInto Sim.the_page EMAIL_INPUT "user@example.com";
      Click Sim.the_page "#identifierNext";
      WaitForSelector Sim.the_page PASSWORD_INPUT 10000%N;
      TypeInto Sim.the_page PASSWORD_INPUT "secret";
      Click Sim.the_page "#passwordNext";
      WaitForNavigation Sim.the_page networkidle2 ] in
  loginToGoogle Recorder.env Runs.EMAIL Runs.PASSWORD (Some Sim.the_page)
    Recorder.start
  = (mkState calls None None calls, Returned tt).
Proof.
  computed (goto Recorder.env Sim.the_page APP_URL networkidle2
              (world Recorder.start)) as Hgoto.
  match type of Hgoto with
  | _ = (?w1, _) =>
      computed (perform_all Recorder.env
                  (login_script Sim.the_page Runs.EMAIL Runs.PASSWORD) w1)
        as Hperf
  end.
  destruct (loginToGoogle_login_sequence Recorder.env Runs.EMAIL Runs.PASSWORD
              Sim.the_page Recorder.start _ _ _ _ Hgoto eq_refl Hperf)
    as (Hrun & _ & _).
  cbv zeta. rewrite Hrun. reflexivity.
Defined.

Lemma unknown_tool_throws_witness :
  callToolHandler Sim.env Runs.EMAIL Runs.PASSWORD
    (mkRequest "delete_notebook" None) (Sim.start Sim.signed_out)
  = (Sim.start Sim.signed_out,
     Thrown (Js.mkError "Error" "지원하지 않는 도구입니다.")).
Proof.
  apply (unknown_tool_throws Sim.env Runs.EMAIL Runs.PASSWORD
           (mkRequest "delete_notebook" None) (Sim.start Sim.signed_out));
    simpl; discriminate.
Defined.

Lemma open_notebooklm_fixed_text_or_propagates_witness :
  snd (callToolHandler Sim.env Runs.EMAIL Runs.PASSWORD
         (mkRequest "open_notebooklm" None) (Sim.start Sim.signed_out))
  = Returned (mkResult [mkContent "text" "NotebookLM을 브라우저에서 열었습니다."])
  /\ snd (callToolHandler Sim.env Runs.EMAIL Runs.PASSWORD
            (mkRequest "open_notebooklm" None) (Sim.start Sim.launch_fails))
     = Thrown (Js.new_Error "Failed to launch the browser process!").
Proof.
  split.
  - computed (initBrowser Sim.env (Sim.start Sim.signed_out)) as Hinit.
    match type of Hinit with
    | _ = (?s1, Returned ?p) =>
        computed (loginToGoogle Sim.env Runs.EMAIL Runs.PASSWORD p s1) as Hlogin
    end.
    rewrite (open_notebooklm_fixed_text_or_propagates Sim.env Runs.EMAIL
               Runs.PASSWORD (mkRequest "open_notebooklm" None)
               _ _ _ eq_refl Hinit _ _ Hlogin).
    reflexivity.
  - computed (initBrowser Sim.env (Sim.start Sim.launch_fails)) as Hinit.
    rewrite (open_notebooklm_fixed_text_or_propagates Sim.env Runs.EMAIL
               Runs.PASSWORD (mkRequest "open_notebooklm" None)
               _ _ _ eq_refl Hinit).
    reflexivity.
Defined.

Lemma createNotebook_without_new_notebook_button_witness :
  exists s',
    createNotebook Sim.env Runs.EMAIL Runs.PASSWORD "My Notes"
      (Sim.start Sim.signed_in_bare)
    = (s', Returned (created_message "My Notes"))
    /\ forallb (fun a => negb (is_click a)) (trace s') = true.
Proof.
  computed (enter_app Sim.env Runs.EMAIL Runs.PASSWORD
              (Sim.start Sim.signed_in_bare)) as Henter.
  match type of Henter with
  | _ = (?s1, _) =>
      computed (waitForSelector Sim.env Sim.the_page NEW_NOTEBOOK_SELECTOR
                  8000%N (world s1)) as Hwait
  end.
  match type of Hwait with
  | _ = (?w2, _) =>
      computed (queryAll Sim.env Sim.the_page "button" w2) as Hquery
  end.
  match type of Hquery with
  | _ = (?w3, Returned ?bs) =>
      computed (scan_without_match Sim.env bs w3) as Hscan
  end.
  destruct (createNotebook_without_new_notebook_button Sim.env Runs.EMAIL
              Runs.PASSWORD "My Notes" _ _ _ _ _ _ _
              Henter Hwait Hquery Hscan)
    as (s' & msg & tail & Hrun & Htrace & Hclick & _ & Hdone).
  destruct (Hdone _ _ _ eq_refl eq_refl eq_refl) as (_ & Htail & Hmsg & _).
  exists s'. rewrite Hrun, Hmsg. split; [reflexivity|].
  rewrite Htrace, forallb_app, Hclick. reflexivity.
Defined.

Lemma session_invariant_witness :
  session_ok (fst (callToolHandler Sim.env Runs.EMAIL Runs.PASSWORD
                     (mkRequest "list_notebooks" None)
                     (Sim.start Sim.signed_out))).
Proof.
  assert (Hstart : session_ok (Sim.start Sim.signed_out))
    by (intros H; elim H; reflexivity).
  destruct (session_invariant Sim.env Runs.EMAIL Runs.PASSWORD
              (Sim.start Sim.signed_out) Hstart) as (_ & Hcall & _).
  computed (callToolHandler Sim.env Runs.EMAIL Runs.PASSWORD
              (mkRequest "list_notebooks" None) (Sim.start Sim.signed_out))
    as Hrun.
  destruct (Hcall _ _ _ Hrun)
    as [Hok|(b & w1 & w2 & e & _ & _ & _ & Hthrown & _)].
  - rewrite Hrun. exact Hok.
  - discriminate Hthrown.
Defined.

(** The exception of C10 at work: the page cannot be opened, [browser] is
    set all the same, and the next call gets [null] from [initBrowser] and
    fails on it. *)
Example page_creation_failure_run :
  let s1 := fst (initBrowser Sim.env (Sim.start Sim.newPage_fails)) in
  browser s1 = Some Sim.the_browser
  /\ page s1 = None
  /\ initBrowser Sim.env s1 = (s1, Returned None)
  /\ snd (callToolHandler Sim.env Runs.EMAIL Runs.PASSWORD
            (mkRequest "open_notebooklm" None) s1)
     = Thrown (Js.null_read "goto").
Proof. vm_compute. repeat split. Qed.

(** * Further properties *)

(** ** The callback of the DOM query and the numbering *)

Lemma filter_Boolean_In (xs : list (option string)) (t : string) :
  In t (filter_Boolean xs) <-> t <> EmptyString /\ In (Some t) xs.
Proof.
  induction xs as [|[x|] rest IH]; simpl.
  - tauto.
  - destruct x as [|c x]; simpl.
    + rewrite IH. split.
      * intros [Hne Hin]. auto.
      * intros [Hne [Heq|Hin]]; [inversion Heq; congruence|auto].
    + rewrite IH. split.
      * intros [<-|[Hne Hin]]; [split; [discriminate|auto]|auto].
      * intros [Hne [Heq|Hin]]; [inversion Heq; auto|auto].
  - rewrite IH. split.
    + intros [Hne Hin]. auto.
    + intros [Hne [Heq|Hin]]; [discriminate|auto].
Qed.

(** X1.  What the callback of [$$eval] hands back are exactly the trimmed
    texts of the matched elements that are not empty: an element without
    text or with blank text never makes it into the list, and nothing is
    in the list that is not the trimmed text of an element. *)
Theorem trimmed_texts_membership (els : list (option string)) (t : string) :
  In t (trimmed_texts els)
  <-> t <> EmptyString /\ exists raw, In (Some raw) els /\ t = Js.trim raw.
Proof.
  unfold trimmed_texts. rewrite filter_Boolean_In, in_map_iff. split.
  - intros [Hne ([raw|] & Heq & Hin)]; simpl in Heq; [|discriminate].
    inversion Heq; subst. split; [assumption|]. exists raw; auto.
  - intros [Hne (raw & Hin & ->)]. split; [assumption|].
    exists (Some raw); auto.
Qed.

Lemma mapi_from_length {A B} (f : A -> nat -> B) (xs : list A) :
  forall i, length (Js.mapi_from i f xs) = length xs.
Proof. induction xs; simpl; auto. Qed.

Lemma mapi_from_nth_error {A B} (f : A -> nat -> B) (xs : list A) :
  forall i k x,
    nth_error xs k = Some x ->
    nth_error (Js.mapi_from i f xs) k = Some (f x (i + k)).
Proof.
  induction xs as [|y rest IH]; intros i [|k] x H; simpl in *; try discriminate.
  - inversion H; subst. rewrite Nat.add_0_r. reflexivity.
  - rewrite (IH (S i) k x H). f_equal. f_equal.
    rewrite Nat.add_succ_r. reflexivity.
Qed.

(** X2.  The list that [listNotebooks] prints has one line per notebook,
    joined by line feeds, and the line of the notebook at index [k] is the
    decimal of [k + 1], a dot, a space and the name. *)
Theorem numbered_lines (notebooks : list string) :
  exists lines,
    numbered notebooks = Js.join Js.nl lines
    /\ length lines = length notebooks
    /\ forall k n,
         nth_error notebooks k = Some n ->
         nth_error lines k = Some (Js.string_of_nat (k + 1) ++ ". " ++ n).
Proof.
  eexists. split; [reflexivity|]. split.
  - apply mapi_from_length.
  - intros k n H. unfold Js.mapi.
    rewrite (mapi_from_nth_error _ _ 0 k n H). reflexivity.
Qed.

(** ** The texts of the answers *)

(** X3.  A success answer of [createNotebook] is never a failure answer,
    whatever the title and whatever was thrown: the two differ in the
    byte after their common opening, so a caller can tell them apart. *)
Theorem created_message_is_not_an_error (t : string) (e : Js.Error) :
  created_message t <> create_error_message e.
Proof.
  unfold created_message, create_error_message. intros H.
  cbn in H. discriminate H.
Qed.

(** X4.  The three kinds of answers of [listNotebooks] -- the empty-state
    message, a header with a list, an error report -- are pairwise
    different, whatever the names and whatever was thrown. *)
Theorem list_answers_are_distinct (body : string) (e : Js.Error) :
  list_header ++ body <> empty_list_message
  /\ list_header ++ body <> list_error_message e
  /\ empty_list_message <> list_error_message e.
Proof.
  unfold list_header, empty_list_message, list_error_message.
  repeat split; intros H; cbn in H; discriminate H.
Qed.

Lemma append_empty_r (x : string) : x ++ EmptyString = x.
Proof. induction x as [|c x IH]; simpl; [reflexivity|f_equal; exact IH]. Qed.

Lemma contains_suffix (pre sub : string) : Js.contains sub (pre ++ sub).
Proof. exists pre, EmptyString. rewrite append_empty_r. reflexivity. Qed.

(** ** Code whose calls all pass a test *)

Section LogLaws.

Context {W : Type} (P : Action -> bool).

Lemma logs_ret {A} (a : A) : logs_only P (@ret W A a).
Proof.
  intros s s' r H; inversion H; subst. exists []. rewrite app_nil_r. auto.
Qed.

Lemma logs_throw {A} e : logs_only P (@throw W A e).
Proof.
  intros s s' r H; inversion H; subst. exists []. rewrite app_nil_r. auto.
Qed.

Lemma logs_read {A} (f : State W -> A) :
  logs_only P (fun s : State W => (s, Returned (f s))).
Proof.
  intros s s' r H; inversion H; subst. exists []. rewrite app_nil_r. auto.
Qed.

Lemma logs_bind {A B} (m : M W A) (k : A -> M W B) :
  logs_only P m -> (forall a, logs_only P (k a)) -> logs_only P (bind m k).
Proof.
  intros Hm Hk s s' r H.
  destruct (bind_inv _ _ _ _ _ H) as [(e & H1 & _)|(s1 & a & H1 & H2)].
  - eapply Hm; eauto.
  - destruct (Hm _ _ _ H1) as (l1 & E1 & F1).
    destruct (Hk _ _ _ _ H2) as (l2 & E2 & F2).
    exists (l1 ++ l2)%list. rewrite E2, E1, app_assoc, forallb_app, F1, F2. auto.
Qed.

Lemma logs_try_catch {A} (body : M W A) handler :
  logs_only P body -> (forall e, logs_only P (handler e)) ->
  logs_only P (try_catch body handler).
Proof.
  intros Hb Hh s s' r. unfold try_catch.
  destruct (body s) as [s1 [a|e]] eqn:E; intros H.
  - inversion H; subst. eapply Hb; eauto.
  - destruct (Hb _ _ _ E) as (l1 & E1 & F1).
    destruct (Hh _ _ _ _ H) as (l2 & E2 & F2).
    exists (l1 ++ l2)%list. rewrite E2, E1, app_assoc, forallb_app, F1, F2. auto.
Qed.

Lemma logs_await {A} a (f : W -> W * Outcome A) :
  P a = true -> logs_only P (await a f).
Proof.
  intros Ha s s' r. unfold await. destruct (f (world s)); intros H.
  inversion H; subst. exists [a]. simpl. rewrite Ha. auto.
Qed.

Lemma logs_on_page {A} p prop (k : Page -> M W A) :
  (forall pg, logs_only P (k pg)) -> logs_only P (on_page p prop k).
Proof. intros Hk. destruct p; simpl; [apply Hk|apply logs_throw]. Qed.



End LogLaws.


(** Syntax-directed proof that a piece of code logs only calls that pass
    the test; the side conditions on the calls are left to the caller. *)
Ltac logs_only_tac :=
  repeat match goal with
    | |- logs_only _ (bind _ _) => apply logs_bind
    | |- logs_only _ (try_catch _ _) => apply logs_try_catch
    | |- logs_only _ (on_page _ _ _) => apply logs_on_page
    | |- logs_only _ (await _ _) => apply logs_await
    | |- logs_only _ (ret _) => apply logs_ret
    | |- logs_only _ (throw _) => apply logs_throw
    | |- logs_only _ (fun s => (s, Returned _)) => apply logs_read
    | |- logs_only _ (if ?b then _ else _) => destruct b
    | |- logs_only _ (match ?x with _ => _ end) => destruct x
    | |- forall _, _ => intro
    end.

Section Further.

Context {W : Type} (env : Env W).
Context (GOOGLE_EMAIL GOOGLE_PASSWORD : string).

#[local] Abbreviation initBrowser := (initBrowser env).
#[local] Abbreviation loginToGoogle := (loginToGoogle env GOOGLE_EMAIL GOOGLE_PASSWORD).
#[local] Abbreviation createNotebook := (createNotebook env GOOGLE_EMAIL GOOGLE_PASSWORD).
#[local] Abbreviation listNotebooks := (listNotebooks env GOOGLE_EMAIL GOOGLE_PASSWORD).
#[local] Abbreviation callToolHandler := (callToolHandler env GOOGLE_EMAIL GOOGLE_PASSWORD).
#[local] Abbreviation enter_app := (enter_app env GOOGLE_EMAIL GOOGLE_PASSWORD).
#[local] Abbreviation page_action := (page_action GOOGLE_EMAIL GOOGLE_PASSWORD).

(** ** The scan for the button *)

Lemma is_new_notebook_contains (txt : option string) :
  is_new_notebook txt = true
  <-> exists t, txt = Some t /\ Js.contains "New notebook" t.
Proof.
  destruct txt as [t|]; simpl.
  - rewrite andb_true_iff, includes_contains. split.
    + intros [_ H]. exists t; auto.
    + intros (t' & Heq & H). inversion Heq; subst. split; [|exact H].
      apply includes_contains in H. destruct t'; [discriminate H|reflexivity].
  - split; [discriminate|]. intros (t & Heq & _). discriminate Heq.
Qed.

(** A scan that reaches a button with the label. *)
Lemma click_first_new_notebook_to_match
    (pre post : list ElementHandle) (btn : ElementHandle) (txt : option string) :
  forall (s : State W) (w1 w2 : W),
    scan_without_match env pre (world s) = Some w1 ->
    textContentOf env btn w1 = (w2, Returned txt) ->
    is_new_notebook txt = true ->
    click_first_new_notebook env (pre ++ btn :: post) s =
    (mkState (fst (clickHandle env btn w2)) (browser s) (page s)
       (trace s ++ map TextContentOf pre
        ++ [TextContentOf btn; ClickHandle btn])%list,
     snd (clickHandle env btn w2)).
Proof.
  induction pre as [|b pre IH]; intros s w1 w2 Hscan Htext Hm; simpl in *.
  - inversion Hscan; subst.
    unfold bind, handle_textContent, handle_click, await.
    rewrite Htext. cbn [world browser page trace].
    rewrite Hm. cbn [world browser page trace].
    destruct (clickHandle env btn w2) as [w3 r]. cbn [fst snd].
    rewrite <- app_assoc. reflexivity.
  - unfold bind at 1, handle_textContent, await.
    destruct (textContentOf env b (world s)) as [w [t|e]]; [|discriminate].
    destruct (is_new_notebook t); [discriminate|].
    rewrite (IH (mkState w (browser s) (page s)
                   (trace s ++ [TextContentOf b])%list) w1 w2 Hscan Htext Hm).
    cbn [world browser page trace]. rewrite <- app_assoc. reflexivity.
Qed.

(** X5.  The loop clicks the first button whose text holds the label, once,
    and leaves: the buttons before it are only read, the ones after it are
    neither read nor clicked, and if the click throws the loop throws. *)
Theorem click_first_new_notebook_first_match
    (pre post : list ElementHandle) (btn : ElementHandle) (t : string)
    (s : State W) (w1 w2 : W) :
  scan_without_match env pre (world s) = Some w1 ->
  textContentOf env btn w1 = (w2, Returned (Some t)) ->
  Js.contains "New notebook" t ->
  click_first_new_notebook env (pre ++ btn :: post) s =
  (mkState (fst (clickHandle env btn w2)) (browser s) (page s)
     (trace s ++ map TextContentOf pre
      ++ [TextContentOf btn; ClickHandle btn])%list,
   snd (clickHandle env btn w2)).
Proof.
  intros Hscan Htext Hlabel.
  apply (click_first_new_notebook_to_match pre post btn (Some t) s w1 w2);
    try assumption.
  apply is_new_notebook_contains. exists t. split; [reflexivity|assumption].
Qed.

(** X6.  The whole of a successful [createNotebook]: when the button is
    there and every call returns, the run inside the [try] block is the
    wait for the button, the listing of the buttons, the reads up to the
    first match, one click on it, the wait for the title input, the typing
    of the title and Enter -- and the answer is the success message. *)
Theorem createNotebook_clicks_then_types
    (title : string) (s s1 : State W) (pg : Page)
    (pre post : list ElementHandle) (btn : ElementHandle) (t : string)
    (w2 w3 w4 w5 w6 w7 w8 w9 : W) :
  enter_app s = (s1, Returned (Some pg)) ->
  waitForSelector env pg NEW_NOTEBOOK_SELECTOR 8000%N (world s1) = (w2, Returned tt) ->
  queryAll env pg "button" w2 = (w3, Returned (pre ++ btn :: post)%list) ->
  scan_without_match env pre w3 = Some w4 ->
  textContentOf env btn w4 = (w5, Returned (Some t)) ->
  Js.contains "New notebook" t ->
  clickHandle env btn w5 = (w6, Returned tt) ->
  waitForSelector env pg TITLE_INPUT_SELECTOR 5000%N w6 = (w7, Returned tt) ->
  keyboardType env pg title w7 = (w8, Returned tt) ->
  keyboardPress env pg "Enter" w8 = (w9, Returned tt) ->
  createNotebook title s =
  (mkState w9 (browser s1) (page s1)
     (trace s1
      ++ [WaitForSelector pg NEW_NOTEBOOK_SELECTOR 8000%N; QueryAll pg "button"]
      ++ map TextContentOf pre
      ++ [TextContentOf btn; ClickHandle btn;
          WaitForSelector pg TITLE_INPUT_SELECTOR 5000%N;
          KeyboardType pg title; KeyboardPress pg "Enter"])%list,
   Returned (created_message title)).
Proof.
  intros Henter Hwait Hquery Hscan Htext Hlabel Hclick Hinput Htype Hpress.
  rewrite createNotebook_unfold, Henter.
  unfold try_catch, createNotebook_try, page_waitForSelector, page_queryAll,
    keyboard_type, keyboard_press, on_page.
  unfold bind at 1, await at 1. rewrite Hwait. cbn [world browser page trace].
  unfold bind at 1, await at 1. cbn [world]. rewrite Hquery.
  cbn [world browser page trace].
  unfold bind at 1.
  match goal with
  | |- context [click_first_new_notebook env _ ?st] =>
      rewrite (click_first_new_notebook_to_match pre post btn (Some t) st w4 w5
                 Hscan Htext)
        by (apply is_new_notebook_contains; eauto)
  end.
  rewrite Hclick. cbn [fst snd world browser page trace].
  unfold bind, await, ret. cbn [world browser page trace].
  rewrite Hinput. cbn [world browser page trace].
  rewrite Htype. cbn [world browser page trace].
  rewrite Hpress. cbn [world browser page trace].
  rewrite <- !app_assoc. reflexivity.
Qed.

(** ** Listing: what is caught and what the answer says *)

Lemma listNotebooks_try_value p (s s' : State W) msg :
  listNotebooks_try env p s = (s', Returned msg) ->
  msg = empty_list_message
  \/ exists names, names <> [] /\ msg = list_header ++ numbered names.
Proof.
  unfold listNotebooks_try. intros H.
  apply bind_inv in H. destruct H as [(e & _ & Hr)|(s1 & names & _ & H)];
    [discriminate Hr|].
  destruct names as [|n ns]; simpl in H; inversion H; subst.
  - left; reflexivity.
  - right. exists (n :: ns). split; [discriminate|reflexivity].
Qed.

(** X7.  The [catch] of [listNotebooks] covers the DOM query and nothing
    before it.  What is thrown while the page is obtained, the login
    ensured or the application opened is thrown on.  After that
    [listNotebooks] never throws: its answer is the empty-state message, a
    header with the numbered list of at least one name, or -- when the
    query threw -- the error report, which holds the text of what was
    thrown. *)
Theorem listNotebooks_catches_inside_try
    (s s1 : State W) (r : Outcome (option Page)) :
  enter_app s = (s1, r) ->
  match r with
  | Thrown e => listNotebooks s = (s1, Thrown e)
  | Returned p =>
      exists s2 msg,
        listNotebooks s = (s2, Returned msg)
        /\ ((listNotebooks_try env p s1 = (s2, Returned msg)
             /\ (msg = empty_list_message
                 \/ exists names,
                      names <> [] /\ msg = list_header ++ numbered names))
            \/ (exists e,
                  listNotebooks_try env p s1 = (s2, Thrown e)
                  /\ msg = list_error_message e
                  /\ Js.contains (Js.toString e) msg))
  end.
Proof.
  intros H. rewrite listNotebooks_unfold, H.
  destruct r as [p|e]; [|reflexivity].
  unfold try_catch, ret.
  destruct (listNotebooks_try env p s1) as [s2 [msg|e]] eqn:E.
  - exists s2, msg. split; [reflexivity|]. left. split; [reflexivity|].
    exact (listNotebooks_try_value _ _ _ _ E).
  - exists s2, (list_error_message e). split; [reflexivity|]. right.
    exists e. repeat split. apply contains_suffix.
Qed.

Lemma trimmed_texts_nil (els : list (option string)) :
  trimmed_texts els = []
  <-> forall raw, In (Some raw) els -> Js.trim raw = EmptyString.
Proof.
  unfold trimmed_texts. induction els as [|[x|] rest IH]; simpl.
  - split; [intros _ raw []|reflexivity].
  - destruct (Js.trim x) as [|c y] eqn:E; simpl.
    + rewrite IH. split.
      * intros H raw [Heq|Hin]; [inversion Heq; subst; exact E|auto].
      * intros H raw Hin. auto.
    + split; [discriminate|]. intros H.
      specialize (H x (or_introl eq_refl)). congruence.
  - rewrite IH. split.
    + intros H raw [Heq|Hin]; [discriminate|auto].
    + intros H raw Hin. auto.
Qed.

(** X8.  Once the application is open and the DOM query has returned,
    [listNotebooks] answers with the empty-state message exactly when
    every matched element is without text or has only white space in it:
    the answer cannot tell a page without notebooks from a page whose
    matches are blank. *)
Theorem listNotebooks_empty_state_iff_blank
    (s s1 : State W) (pg : Page) (w2 : W) (els : list (option string)) :
  enter_app s = (s1, Returned (Some pg)) ->
  queryAllTextContent env pg NOTEBOOK_TITLE_SELECTOR (world s1) = (w2, Returned els) ->
  exists s2 msg,
    listNotebooks s = (s2, Returned msg)
    /\ (msg = empty_list_message
        <-> forall raw, In (Some raw) els -> Js.trim raw = EmptyString).
Proof.
  intros Henter Hquery. rewrite listNotebooks_unfold, Henter.
  unfold try_catch, listNotebooks_try, page_evalAll, on_page, bind, await, ret.
  rewrite Hquery. cbn [world browser page trace].
  pose proof (trimmed_texts_nil els) as Hnil.
  destruct (trimmed_texts els) as [|n ns]; cbn [length Nat.eqb].
  - eexists _, _. split; [reflexivity|]. tauto.
  - eexists _, _. split; [reflexivity|]. split.
    + unfold list_header, empty_list_message. intros H. cbn in H. discriminate H.
    + intros H. apply Hnil in H. discriminate H.
Qed.

(** ** The session *)

(** X9.  A launch that throws leaves [browser] unset and [page] untouched,
    so the next call tries again: whatever [initBrowser] then does, it
    starts with another launch, with the same fixed options. *)
Theorem initBrowser_retries_failed_launch (s : State W) (w1 : W) (e : Js.Error) :
  browser s = None ->
  launch env false LAUNCH_ARGS (world s) = (w1, Thrown e) ->
  exists s1,
    initBrowser s = (s1, Thrown e)
    /\ world s1 = w1 /\ browser s1 = None /\ page s1 = page s
    /\ trace s1 = (trace s ++ [Launch false LAUNCH_ARGS])%list
    /\ forall s2 r2,
         initBrowser s1 = (s2, r2) ->
         exists rest,
           trace s2 = (trace s1 ++ Launch false LAUNCH_ARGS :: rest)%list.
Proof.
  intros Hb Hl. rewrite (initBrowser_closed env s Hb), Hl.
  eexists. split; [reflexivity|]. cbn [world browser page trace].
  repeat split.
  intros s2 r2 H. rewrite initBrowser_closed in H by reflexivity.
  cbn [world browser page trace] in H.
  destruct (launch env false LAUNCH_ARGS w1) as [w2 [b|e2]].
  - cbv zeta in H. destruct (newPage env b w2) as [w3 [p|e3]];
      inversion H; subst; cbn [trace]; exists [NewPage b];
      rewrite <- app_assoc; reflexivity.
  - inversion H; subst. exists []. reflexivity.
Qed.

(** ** What the handlers ask of the browser *)

Ltac page_action_tac :=
  cbn; rewrite ?String.eqb_refl, ?orb_true_r; reflexivity.

Lemma loginToGoogle_logs title p :
  logs_only (page_action title) (loginToGoogle p).
Proof.
  unfold loginToGoogle, page_goto, page_url, page_waitForSelector,
    page_type, page_click, page_waitForNavigation.
  logs_only_tac; page_action_tac.
Qed.

Lemma page_goto_logs title p :
  logs_only (page_action title) (page_goto env p APP_URL networkidle2).
Proof. unfold page_goto. logs_only_tac; page_action_tac. Qed.

Lemma click_first_new_notebook_logs title bs :
  logs_only (page_action title) (click_first_new_notebook env bs).
Proof.
  induction bs as [|btn rest IH]; simpl.
  - apply logs_ret.
  - unfold handle_textContent, handle_click.
    logs_only_tac; try exact IH; page_action_tac.
Qed.

Lemma createNotebook_try_logs p title :
  logs_only (page_action (Some title)) (createNotebook_try env p title).
Proof.
  unfold createNotebook_try, page_waitForSelector, page_queryAll,
    keyboard_type, keyboard_press.
  logs_only_tac; try apply click_first_new_notebook_logs; page_action_tac.
Qed.

Lemma listNotebooks_try_logs title p :
  logs_only (page_action title) (listNotebooks_try env p).
Proof.
  unfold listNotebooks_try, page_evalAll. logs_only_tac; page_action_tac.
Qed.

Lemma forallb_weaken (P Q : Action -> bool) (l : list Action) :
  (forall a, P a = true -> Q a = true) ->
  forallb P l = true -> forallb Q l = true.
Proof. intros HPQ. rewrite !forallb_forall. auto. Qed.


Lemma page_action_starts_nothing title a :
  page_action title a = true -> negb (starts_session a) = true.
Proof. destruct a; simpl; auto. Qed.

(** The three operations once [initBrowser] has answered. *)
Lemma after_initBrowser_keeps title p :
  keeps_module
    (loginToGoogle p ;;
     page_goto env p APP_URL networkidle2 ;;
     try_catch (createNotebook_try env p title)
               (fun e => ret (create_error_message e)))
  /\ keeps_module
       (loginToGoogle p ;;
        page_goto env p APP_URL networkidle2 ;;
        try_catch (listNotebooks_try env p)
                  (fun e => ret (list_error_message e)))
  /\ keeps_module (loginToGoogle p ;; ret (text_result opened_message)).
Proof.
  split; [|split]; keeps_module_tac;
    auto using loginToGoogle_keeps, page_goto_keeps, createNotebook_try_keeps,
      listNotebooks_try_keeps.
Qed.

Lemma after_initBrowser_logs title t p :
  logs_only (page_action (Some title))
    (loginToGoogle p ;;
     page_goto env p APP_URL networkidle2 ;;
     try_catch (createNotebook_try env p title)
               (fun e => ret (create_error_message e)))
  /\ logs_only (page_action t)
       (loginToGoogle p ;;
        page_goto env p APP_URL networkidle2 ;;
        try_catch (listNotebooks_try env p)
                  (fun e => ret (list_error_message e)))
  /\ logs_only (page_action t)
       (loginToGoogle p ;; ret (text_result opened_message)).
Proof.
  split; [|split]; logs_only_tac;
    auto using loginToGoogle_logs, page_goto_logs, createNotebook_try_logs,
      listNotebooks_try_logs.
Qed.



(** *** Where the handles come from *)





















(** With a browser in hand an operation is what follows [initBrowser] in
    it, run on [page]. *)
Lemma from_open {A} (Q : Action -> bool) (k : option Page -> M W A)
    (s s' : State W) (b : Browser) (r : Outcome A) :
  (forall p, keeps_module (k p)) ->
  (forall p, logs_only Q (k p)) ->
  browser s = Some b ->
  bind initBrowser k s = (s', r) ->
  browser s' = Some b /\ page s' = page s
  /\ exists l, trace s' = (trace s ++ l)%list /\ forallb Q l = true.
Proof.
  intros Hk Hl Hb H.
  rewrite (bind_Returned _ _ _ _ _ (initBrowser_open env s b Hb)) in H.
  destruct (Hk _ _ _ _ H) as [E1 E2]. split; [congruence|].
  split; [exact E2|]. exact (Hl _ _ _ _ H).
Qed.

Lemma bind_ret_state {A B} (m : M W A) (f : A -> B) (s s' : State W) r :
  bind m (fun a => ret (f a)) s = (s', r) -> exists r0, m s = (s', r0).
Proof.
  intros H. destruct (bind_inv _ _ _ _ _ H) as [(e & H1 & _)|(s1 & a & H1 & H2)].
  - eauto.
  - inversion H2; subst. eauto.
Qed.

(** X11.  Once there is a browser, no tool call replaces it or the page,
    and none launches a browser or opens a page again: the one session is
    reused until the process ends. *)
Theorem tool_call_reuses_session
    (request : CallToolRequest) (s s' : State W) (b : Browser)
    (r : Outcome CallToolResult) :
  browser s = Some b ->
  callToolHandler request s = (s', r) ->
  browser s' = Some b /\ page s' = page s
  /\ exists l,
       trace s' = (trace s ++ l)%list
       /\ forallb (fun a => negb (starts_session a)) l = true.
Proof.
  intros Hb H.
  assert (Hgoal : browser s' = Some b /\ page s' = page s
                  /\ exists l, trace s' = (trace s ++ l)%list
                               /\ forallb (page_action (title_of request)) l = true).
  { unfold callToolHandler in H.
    destruct (name request =? "create_notebook")%string eqn:E1;
      [|destruct (name request =? "list_notebooks")%string eqn:E2;
        [|destruct (name request =? "open_notebooklm")%string eqn:E3]].
    - unfold title_of. rewrite E1.
      destruct (arguments request) as [a|]; cbn [option_map].
      + change (bind (createNotebook (title a))
                  (fun result => ret (text_result result)) s = (s', r)) in H.
        apply bind_ret_state in H. destruct H as [r0 H].
        unfold createNotebook in H.
        refine (from_open (page_action (Some (title a))) _ s s' b r0 _ _ Hb H);
          intros p; [apply after_initBrowser_keeps
                    |apply after_initBrowser_logs; exact None].
      + inversion H; subst. repeat split; auto.
        exists []. rewrite app_nil_r. auto.
    - apply bind_ret_state in H. destruct H as [r0 H].
      unfold listNotebooks in H.
      refine (from_open (page_action (title_of request)) _ s s' b r0 _ _ Hb H);
        intros p; [apply (after_initBrowser_keeps EmptyString)
                  |apply (after_initBrowser_logs EmptyString)].
    - refine (from_open (page_action (title_of request)) _ s s' b r _ _ Hb H);
        intros p; [apply (after_initBrowser_keeps EmptyString)
                  |apply (after_initBrowser_logs EmptyString)].
    - inversion H; subst. repeat split; auto.
      exists []. rewrite app_nil_r. auto. }
  destruct Hgoal as (E1 & E2 & l & E3 & F). repeat split; auto.
  exists l. split; [exact E3|].
  exact (forallb_weaken _ _ l (page_action_starts_nothing _) F).
Qed.

(** X12.  When the opening of the page has failed -- [browser] set, [page]
    still null -- the server is stuck for good: every tool call throws
    without calling the browser and leaves the state as it is, so the next
    call meets the same state.  A call of one of the three tools (with its
    arguments, for [create_notebook]) throws the error of reading [goto]
    of null. *)
Theorem tool_calls_fail_without_page
    (request : CallToolRequest) (s : State W) (b : Browser) :
  browser s = Some b ->
  page s = None ->
  exists e,
    callToolHandler request s = (s, Thrown e)
    /\ (In (name request) catalog_names ->
        (name request = "create_notebook" -> arguments request <> None) ->
        e = Js.null_read "goto").
Proof.
  intros Hb Hp.
  assert (Hinit : initBrowser s = (s, Returned None))
    by (rewrite (initBrowser_open env s b Hb), Hp; reflexivity).
  unfold callToolHandler.
  destruct (name request =? "create_notebook")%string eqn:E1;
    [|destruct (name request =? "list_notebooks")%string eqn:E2;
      [|destruct (name request =? "open_notebooklm")%string eqn:E3]].
  - destruct (arguments request) as [a|].
    + exists (Js.null_read "goto"). split; [|auto].
      change (bind (createNotebook (title a))
                (fun result => ret (text_result result)) s
              = (s, Thrown (Js.null_read "goto"))).
      apply bind_Thrown. unfold createNotebook.
      rewrite (bind_Returned _ _ _ _ _ Hinit). reflexivity.
    + eexists. split; [reflexivity|]. intros _ Hargs.
      apply String.eqb_eq in E1. elim (Hargs E1). reflexivity.
  - exists (Js.null_read "goto"). split; [|auto].
    apply bind_Thrown. unfold listNotebooks.
    rewrite (bind_Returned _ _ _ _ _ Hinit). reflexivity.
  - exists (Js.null_read "goto"). split; [|auto].
    rewrite (bind_Returned _ _ _ _ _ Hinit). reflexivity.
  - eexists. split; [reflexivity|]. intros Hin _.
    apply String.eqb_neq in E1, E2, E3.
    destruct Hin as [Hn|[Hn|[Hn|[]]]]; congruence.
Qed.

(** X13.  A response of the dispatcher, when there is one, is always a
    single content item of type text. *)
Theorem tool_call_response_is_one_text
    (request : CallToolRequest) (s s' : State W) (res : CallToolResult) :
  callToolHandler request s = (s', Returned res) ->
  exists txt, content res = [mkContent "text" txt].
Proof.
  unfold callToolHandler. intros H.
  destruct (name request =? "create_notebook")%string;
    [|destruct (name request =? "list_notebooks")%string;
      [|destruct (name request =? "open_notebooklm")%string]].
  - apply bind_inv in H. destruct H as [(e & _ & Hr)|(s1 & t & _ & H)];
      [discriminate Hr|].
    apply bind_inv in H. destruct H as [(e & _ & Hr)|(s2 & msg & _ & H)];
      [discriminate Hr|].
    inversion H; subst. exists msg. reflexivity.
  - apply bind_inv in H. destruct H as [(e & _ & Hr)|(s2 & msg & _ & H)];
      [discriminate Hr|].
    inversion H; subst. exists msg. reflexivity.
  - apply bind_inv in H. destruct H as [(e & _ & Hr)|(s1 & p & _ & H)];
      [discriminate Hr|].
    apply bind_inv in H. destruct H as [(e & _ & Hr)|(s2 & u & _ & H)];
      [discriminate Hr|].
    inversion H; subst. exists opened_message. reflexivity.
  - discriminate H.
Qed.

(** X14.  Once the page is obtained, the login ensured and the
    application opened, a [create_notebook] call with arguments and a
    [list_notebooks] call always end in a response, never in a thrown
    error: a failure inside the handler reaches the caller as the text of
    a normal response. *)
Theorem create_and_list_calls_respond
    (request : CallToolRequest) (s s1 : State W) (p : option Page) :
  (name request = "create_notebook" /\ arguments request <> None)
  \/ name request = "list_notebooks" ->
  enter_app s = (s1, Returned p) ->
  exists s2 msg,
    callToolHandler request s = (s2, Returned (text_result msg)).
Proof.
  intros Hname Henter. unfold callToolHandler.
  destruct Hname as [[Hn Hargs]|Hn]; rewrite Hn; cbn [String.eqb Ascii.eqb Bool.eqb].
  - destruct (arguments request) as [a|]; [|elim Hargs; reflexivity].
    unfold bind at 1 2, ret at 1.
    rewrite createNotebook_unfold, Henter. unfold try_catch, ret.
    destruct (createNotebook_try env p (title a) s1) as [s2 [msg|e]];
      eexists _, _; reflexivity.
  - unfold bind at 1.
    rewrite listNotebooks_unfold, Henter. unfold try_catch, ret.
    destruct (listNotebooks_try env p s1) as [s2 [msg|e]];
      eexists _, _; reflexivity.
Qed.

(** ** Every title is in the answer *)

Lemma append_assoc_string (x y z : string) : (x ++ y) ++ z = x ++ y ++ z.
Proof. induction x as [|c x IH]; simpl; [reflexivity|f_equal; exact IH]. Qed.

Lemma contains_append_r (x a b : string) :
  Js.contains x b -> Js.contains x (a ++ b).
Proof.
  intros (pre & post & ->). exists (a ++ pre), post.
  rewrite append_assoc_string. reflexivity.
Qed.

Lemma contains_append_l (x a b : string) :
  Js.contains x a -> Js.contains x (a ++ b).
Proof.
  intros (pre & post & ->). exists pre, (post ++ b).
  rewrite !append_assoc_string. reflexivity.
Qed.

Lemma contains_self (x : string) : Js.contains x x.
Proof. exists EmptyString, EmptyString. rewrite append_empty_r. reflexivity. Qed.

Lemma join_contains (sep x : string) (xs : list string) :
  In x xs -> Js.contains x (Js.join sep xs).
Proof.
  induction xs as [|y rest IH]; intros Hin; [destruct Hin|].
  destruct rest as [|z rest'].
  - destruct Hin as [->|[]]. apply contains_self.
  - change (Js.join sep (y :: z :: rest'))
      with (y ++ sep ++ Js.join sep (z :: rest')).
    destruct Hin as [->|Hin].
    + apply contains_append_l, contains_self.
    + apply contains_append_r, contains_append_r, IH, Hin.
Qed.

(** X15.  Every title the DOM query finds is in the answer of
    [listNotebooks], with its number: for the title at index [k] of the
    trimmed, non-empty texts the answer holds the decimal of [k + 1], a
    dot, a space and the title. *)
Theorem listNotebooks_mentions_every_title
    (s s1 : State W) (pg : Page) (w2 : W) (els : list (option string))
    (k : nat) (t : string) :
  enter_app s = (s1, Returned (Some pg)) ->
  queryAllTextContent env pg NOTEBOOK_TITLE_SELECTOR (world s1) = (w2, Returned els) ->
  nth_error (trimmed_texts els) k = Some t ->
  exists s2 msg,
    listNotebooks s = (s2, Returned msg)
    /\ Js.contains (Js.string_of_nat (k + 1) ++ ". " ++ t) msg.
Proof.
  intros Henter Hquery Hk. rewrite listNotebooks_unfold, Henter.
  unfold try_catch, listNotebooks_try, page_evalAll, on_page, bind, await, ret.
  rewrite Hquery. cbn [world browser page trace].
  destruct (trimmed_texts els) as [|n ns] eqn:E;
    [destruct k; discriminate Hk|].
  cbn [length Nat.eqb]. eexists _, _. split; [reflexivity|].
  apply contains_append_r. unfold numbered. apply join_contains.
  apply (nth_error_In _ k). unfold Js.mapi.
  rewrite (mapi_from_nth_error _ _ 0 k t Hk). reflexivity.
Qed.

(** ** The authenticator does not look back *)

(** X16.  On the login path, when the seven calls of the form filling
    return, [loginToGoogle] returns, whatever page the browser ends up on:
    the URL is not read again, so a rejected password is not noticed
    here. *)
Theorem loginToGoogle_returns_unchecked
    (pg : Page) (s : State W) (w1 w2 w3 w4 w5 w6 w7 w8 : W) :
  goto env pg APP_URL networkidle2 (world s) = (w1, Returned tt) ->
  already_signed_in (url env pg w1) = false ->
  waitForSelector env pg EMAIL_INPUT 10000%N w1 = (w2, Returned tt) ->
  typeInto env pg EMAIL_INPUT GOOGLE_EMAIL w2 = (w3, Returned tt) ->
  click env pg "#identifierNext" w3 = (w4, Returned tt) ->
  waitForSelector env pg PASSWORD_INPUT 10000%N w4 = (w5, Returned tt) ->
  typeInto env pg PASSWORD_INPUT GOOGLE_PASSWORD w5 = (w6, Returned tt) ->
  click env pg "#passwordNext" w6 = (w7, Returned tt) ->
  waitForNavigation env pg networkidle2 w7 = (w8, Returned tt) ->
  loginToGoogle (Some pg) s =
  (mkState w8 (browser s) (page s)
     (trace s ++ Goto pg APP_URL networkidle2
      :: login_script pg GOOGLE_EMAIL GOOGLE_PASSWORD)%list,
   Returned tt).
Proof.
  intros Hgoto Hskip H1 H2 H3 H4 H5 H6 H7.
  unfold loginToGoogle, page_goto, page_url, page_waitForSelector,
    page_type, page_click, page_waitForNavigation, on_page, bind, await, ret.
  rewrite Hgoto. cbn [world browser page trace].
  unfold already_signed_in in Hskip.
  destruct (Js.includes (url env pg w1) "notebooklm.google.com");
    cbn [world browser page trace andb] in Hskip |- *;
    try rewrite Hskip; cbn [world browser page trace].
  all: rewrite H1; cbn [world browser page trace];
    rewrite H2; cbn [world browser page trace];
    rewrite H3; cbn [world browser page trace];
    rewrite H4; cbn [world browser page trace];
    rewrite H5; cbn [world browser page trace];
    rewrite H6; cbn [world browser page trace];
    rewrite H7; cbn [world browser page trace];
    rewrite <- !app_assoc; reflexivity.
Qed.

(** X17.  With the session open and the site signed in, what
    [createNotebook] and [listNotebooks] do before their [try] block is
    two navigations to the application root, one after the other: the one
    of the login check and their own. *)
Theorem enter_app_navigates_twice
    (s : State W) (b : Browser) (pg : Page) (w1 w2 : W) (r : Outcome unit) :
  browser s = Some b ->
  page s = Some pg ->
  goto env pg APP_URL networkidle2 (world s) = (w1, Returned tt) ->
  already_signed_in (url env pg w1) = true ->
  goto env pg APP_URL networkidle2 w1 = (w2, r) ->
  enter_app s =
  (mkState w2 (Some b) (Some pg)
     (trace s ++ [Goto pg APP_URL networkidle2; Goto pg APP_URL networkidle2])%list,
   match r with
   | Returned _ => Returned (Some pg)
   | Thrown e => Thrown e
   end).
Proof.
  intros Hb Hp Hgoto Hin Hgoto2.
  unfold already_signed_in in Hin. apply andb_true_iff in Hin.
  destruct Hin as [Happ Hacc]. apply negb_true_iff in Hacc.
  unfold enter_app.
  rewrite (bind_Returned _ _ _ _ _ (initBrowser_open env s b Hb)), Hp.
  unfold loginToGoogle, page_goto, page_url, on_page.
  unfold bind, await, ret. rewrite Hgoto. cbn [world browser page trace].
  rewrite Happ. cbn [world]. rewrite Hacc. cbn [negb world browser page trace].
  rewrite Hgoto2, Hb, Hp. destruct r as [[]|e]; rewrite <- app_assoc; reflexivity.
Qed.

(** X18.  A [create_notebook] call that comes without arguments throws on
    reading [title] before anything else happens: no browser is launched,
    no page is touched, the state is as it was. *)
Theorem create_notebook_without_arguments_throws
    (request : CallToolRequest) (s : State W) :
  name request = "create_notebook" ->
  arguments request = None ->
  callToolHandler request s = (s, Thrown (Js.undefined_read "title")).
Proof.
  intros Hn Ha. unfold callToolHandler. rewrite Hn, Ha. reflexivity.
Qed.
End Further.

(** * Further runs on the simulated browser *)

Lemma click_first_new_notebook_first_match_witness :
  trace (fst (click_first_new_notebook Sim.env [11; 12; 13]
                (Sim.start Sim.signed_out)))
  = [TextContentOf 11; TextContentOf 12; ClickHandle 12].
Proof.
  computed (scan_without_match Sim.env [11] (world (Sim.start Sim.signed_out)))
    as Hscan.
  match type of Hscan with
  | _ = Some ?w1 => computed (textContentOf Sim.env 12 w1) as Htext
  end.
  pose proof (click_first_new_notebook_first_match Sim.env [11] [13] 12
                "New notebook" (Sim.start Sim.signed_out) _ _ Hscan Htext
                (contains_self "New notebook")) as Hrun.
  refine (eq_trans (f_equal (fun run => trace (fst run)) Hrun) _).
  reflexivity.
Defined.

Lemma createNotebook_clicks_then_types_witness :
  snd (createNotebook Sim.env Runs.EMAIL Runs.PASSWORD "My Notes"
         (Sim.start Sim.signed_out))
  = Returned (created_message "My Notes").
Proof.
  computed (enter_app Sim.env Runs.EMAIL Runs.PASSWORD (Sim.start Sim.signed_out))
    as Henter.
  match type of Henter with
  | _ = (?s1, _) =>
      computed (waitForSelector Sim.env Sim.the_page NEW_NOTEBOOK_SELECTOR
                  8000%N (world s1)) as Hwait
  end.
  match type of Hwait with
  | _ = (?w, _) => computed (queryAll Sim.env Sim.the_page "button" w) as Hquery
  end.
  match type of Hquery with
  | _ = (?w, _) => computed (scan_without_match Sim.env [11] w) as Hscan
  end.
  match type of Hscan with
  | _ = Some ?w => computed (textContentOf Sim.env 12 w) as Htext
  end.
  match type of Htext with
  | _ = (?w, _) => computed (clickHandle Sim.env 12 w) as Hclick
  end.
  match type of Hclick with
  | _ = (?w, _) =>
      computed (waitForSelector Sim.env Sim.the_page TITLE_INPUT_SELECTOR
                  5000%N w) as Hinput
  end.
  match type of Hinput with
  | _ = (?w, _) =>
      computed (keyboardType Sim.env Sim.the_page "My Notes" w) as Htype
  end.
  match type of Htype with
  | _ = (?w, _) =>
      computed (keyboardPress Sim.env Sim.the_page "Enter" w) as Hpress
  end.
  rewrite (createNotebook_clicks_then_types Sim.env Runs.EMAIL Runs.PASSWORD
             "My Notes" _ _ Sim.the_page [11] [13] 12 "New notebook"
             _ _ _ _ _ _ _ _
             Henter Hwait Hquery Hscan Htext (contains_self "New notebook")
             Hclick Hinput Htype Hpress).
  reflexivity.
Defined.

Lemma listNotebooks_catches_inside_try_witness :
  snd (listNotebooks Sim.env Runs.EMAIL Runs.PASSWORD
         (Sim.start Faults.query_fails))
  = Returned ("목록 불러오기 오류: " ++ "Error: Execution context was destroyed").
Proof.
  computed (enter_app Sim.env Runs.EMAIL Runs.PASSWORD
              (Sim.start Faults.query_fails)) as Henter.
  destruct (listNotebooks_catches_inside_try Sim.env Runs.EMAIL Runs.PASSWORD
              _ _ _ Henter)
    as (s2 & msg & Hrun & [(Htry & _)|(e & Htry & Hmsg & _)]).
  - vm_compute in Htry. discriminate Htry.
  - rewrite Hrun, Hmsg. vm_compute in Htry. inversion Htry; subst. reflexivity.
Defined.

Lemma listNotebooks_empty_state_iff_blank_witness :
  snd (listNotebooks Sim.env Runs.EMAIL Runs.PASSWORD
         (Sim.start Sim.signed_in_bare))
  = Returned empty_list_message.
Proof.
  computed (enter_app Sim.env Runs.EMAIL Runs.PASSWORD
              (Sim.start Sim.signed_in_bare)) as Henter.
  match type of Henter with
  | _ = (?s1, _) =>
      computed (queryAllTextContent Sim.env Sim.the_page
                  NOTEBOOK_TITLE_SELECTOR (world s1)) as Hquery
  end.
  destruct (listNotebooks_empty_state_iff_blank Sim.env Runs.EMAIL Runs.PASSWORD
              _ _ _ _ _ Henter Hquery) as (s2 & msg & Hrun & Hiff).
  rewrite Hrun. cbn [snd]. f_equal. apply Hiff.
  intros raw [Heq|[Heq|[]]]; [discriminate Heq|].
  inversion Heq; subst. reflexivity.
Defined.

Lemma initBrowser_retries_failed_launch_witness :
  let s1 := fst (initBrowser Sim.env (Sim.start Sim.launch_fails)) in
  browser s1 = None
  /\ trace (fst (initBrowser Sim.env s1))
     = [Launch false LAUNCH_ARGS; Launch false LAUNCH_ARGS].
Proof.
  computed (launch Sim.env false LAUNCH_ARGS (world (Sim.start Sim.launch_fails)))
    as Hlaunch.
  destruct (initBrowser_retries_failed_launch Sim.env
              (Sim.start Sim.launch_fails) _ _ eq_refl Hlaunch)
    as (s1 & Hrun & _ & Hb & _ & Htrace & Hnext).
  cbv zeta. rewrite Hrun. cbn [fst]. split; [exact Hb|].
  destruct (Hnext _ _ (surjective_pairing _)) as (rest & Hrest).
  rewrite Hrest, Htrace. vm_compute in Hrun. inversion Hrun; subst.
  vm_compute in Hrest. vm_compute.
  inversion Hrest as [Hr]. reflexivity.
Defined.


Lemma tool_call_reuses_session_witness :
  let s1 := fst (initBrowser Sim.env (Sim.start Sim.signed_out)) in
  let s2 := fst (callToolHandler Sim.env Runs.EMAIL Runs.PASSWORD
                   (mkRequest "open_notebooklm" None) s1) in
  browser s2 = Some Sim.the_browser /\ page s2 = Some Sim.the_page.
Proof.
  computed (initBrowser Sim.env (Sim.start Sim.signed_out)) as Hinit.
  cbv zeta. rewrite Hinit. cbn [fst].
  match goal with
  | |- context [callToolHandler ?e ?a ?b ?req ?s1] =>
      computed (callToolHandler e a b req s1) as Hrun;
      destruct (tool_call_reuses_session e a b req s1 _ Sim.the_browser _
                  eq_refl Hrun) as (Hb & Hp & _)
  end.
  rewrite Hrun. cbn [fst]. split; [exact Hb|exact Hp].
Defined.

Lemma tool_calls_fail_without_page_witness :
  let s1 := fst (initBrowser Sim.env (Sim.start Sim.newPage_fails)) in
  callToolHandler Sim.env Runs.EMAIL Runs.PASSWORD
    (mkRequest "list_notebooks" None) s1
  = (s1, Thrown (Js.null_read "goto")).
Proof.
  computed (initBrowser Sim.env (Sim.start Sim.newPage_fails)) as Hinit.
  cbv zeta. rewrite Hinit. cbn [fst].
  match goal with
  | |- callToolHandler ?e ?a ?b ?req ?s1 = _ =>
      destruct (tool_calls_fail_without_page e a b req s1 Sim.the_browser
                  eq_refl eq_refl) as (err & Hrun & Herr)
  end.
  rewrite Hrun, Herr; [reflexivity|simpl; auto|discriminate].
Defined.

Lemma tool_call_response_is_one_text_witness :
  content (match snd (callToolHandler Sim.env Runs.EMAIL Runs.PASSWORD
                        (mkRequest "open_notebooklm" None)
                        (Sim.start Sim.signed_out)) with
           | Returned res => res
           | Thrown _ => mkResult []
           end)
  = [mkContent "text" opened_message].
Proof.
  computed (callToolHandler Sim.env Runs.EMAIL Runs.PASSWORD
              (mkRequest "open_notebooklm" None) (Sim.start Sim.signed_out))
    as Hrun.
  destruct (tool_call_response_is_one_text Sim.env Runs.EMAIL Runs.PASSWORD
              _ _ _ _ Hrun) as (txt & Htxt).
  rewrite Hrun. cbn [snd]. rewrite Htxt. vm_compute in Htxt.
  inversion Htxt; subst. reflexivity.
Defined.

Lemma create_and_list_calls_respond_witness :
  exists s2 msg,
    callToolHandler Sim.env Runs.EMAIL Runs.PASSWORD
      (mkRequest "create_notebook" (Some (mkArguments "My Notes")))
      (Sim.start Sim.title_input_missing)
    = (s2, Returned (text_result msg)).
Proof.
  computed (enter_app Sim.env Runs.EMAIL Runs.PASSWORD
              (Sim.start Sim.title_input_missing)) as Henter.
  refine (create_and_list_calls_respond Sim.env Runs.EMAIL Runs.PASSWORD
            (mkRequest "create_notebook" (Some (mkArguments "My Notes")))
            _ _ _ (or_introl (conj eq_refl _)) Henter).
  simpl. discriminate.
Defined.

Lemma listNotebooks_mentions_every_title_witness :
  exists s2 msg,
    listNotebooks Sim.env Runs.EMAIL Runs.PASSWORD (Sim.start Sim.signed_out)
    = (s2, Returned msg)
    /\ Js.contains "2. B" msg.
Proof.
  computed (enter_app Sim.env Runs.EMAIL Runs.PASSWORD (Sim.start Sim.signed_out))
    as Henter.
  match type of Henter with
  | _ = (?s1, _) =>
      computed (queryAllTextContent Sim.env Sim.the_page
                  NOTEBOOK_TITLE_SELECTOR (world s1)) as Hquery
  end.
  exact (listNotebooks_mentions_every_title Sim.env Runs.EMAIL Runs.PASSWORD
           _ _ _ _ _ 1 "B" Henter Hquery eq_refl).
Defined.

Lemma loginToGoogle_returns_unchecked_witness :
  let run := loginToGoogle Faults.rejecting Runs.EMAIL Runs.PASSWORD
               (Some Sim.the_page) (Sim.start Sim.signed_out) in
  snd run = Returned tt
  /\ url Faults.rejecting Sim.the_page (world (fst run)) = Sim.SIGN_IN_URL.
Proof.
  computed (goto Faults.rejecting Sim.the_page APP_URL networkidle2
              (world (Sim.start Sim.signed_out))) as H0.
  match type of H0 with
  | _ = (?w, _) =>
      computed (waitForSelector Faults.rejecting Sim.the_page EMAIL_INPUT
                  10000%N w) as H1
  end.
  match type of H1 with
  | _ = (?w, _) =>
      computed (typeInto Faults.rejecting Sim.the_page EMAIL_INPUT
                  Runs.EMAIL w) as H2
  end.
  match type of H2 with
  | _ = (?w, _) =>
      computed (click Faults.rejecting Sim.the_page "#identifierNext" w) as H3
  end.
  match type of H3 with
  | _ = (?w, _) =>
      computed (waitForSelector Faults.rejecting Sim.the_page PASSWORD_INPUT
                  10000%N w) as H4
  end.
  match type of H4 with
  | _ = (?w, _) =>
      computed (typeInto Faults.rejecting Sim.the_page PASSWORD_INPUT
                  Runs.PASSWORD w) as H5
  end.
  match type of H5 with
  | _ = (?w, _) =>
      computed (click Faults.rejecting Sim.the_page "#passwordNext" w) as H6
  end.
  match type of H6 with
  | _ = (?w, _) =>
      computed (waitForNavigation Faults.rejecting Sim.the_page networkidle2 w)
        as H7
  end.
  cbv zeta.
  rewrite (loginToGoogle_returns_unchecked Faults.rejecting Runs.EMAIL
             Runs.PASSWORD Sim.the_page (Sim.start Sim.signed_out)
             _ _ _ _ _ _ _ _ H0 eq_refl H1 H2 H3 H4 H5 H6 H7).
  split; reflexivity.
Defined.

Lemma enter_app_navigates_twice_witness :
  let s1 := fst (initBrowser Sim.env (Sim.start Sim.signed_in_bare)) in
  trace (fst (enter_app Sim.env Runs.EMAIL Runs.PASSWORD s1))
  = (trace s1 ++ [Goto Sim.the_page APP_URL networkidle2;
                  Goto Sim.the_page APP_URL networkidle2])%list.
Proof.
  computed (initBrowser Sim.env (Sim.start Sim.signed_in_bare)) as Hinit.
  cbv zeta. rewrite Hinit. cbn [fst].
  match goal with
  | |- context [enter_app _ _ _ ?s1] =>
      computed (goto Sim.env Sim.the_page APP_URL networkidle2 (world s1)) as H1;
      match type of H1 with
      | _ = (?w1, _) =>
          computed (goto Sim.env Sim.the_page APP_URL networkidle2 w1) as H2;
          rewrite (enter_app_navigates_twice Sim.env Runs.EMAIL Runs.PASSWORD
                     s1 Sim.the_browser Sim.the_page _ _ _
                     eq_refl eq_refl H1 eq_refl H2)
      end
  end.
  reflexivity.
Defined.

Lemma create_notebook_without_arguments_throws_witness :
  callToolHandler Sim.env Runs.EMAIL Runs.PASSWORD
    (mkRequest "create_notebook" None) (Sim.start Sim.signed_out)
  = (Sim.start Sim.signed_out,
     Thrown (Js.mkError "TypeError"
               "Cannot read properties of undefined (reading 'title')")).
Proof.
  exact (create_notebook_without_arguments_throws Sim.env Runs.EMAIL
           Runs.PASSWORD (mkRequest "create_notebook" None)
           (Sim.start Sim.signed_out) eq_refl eq_refl).
Defined.

Lemma trimmed_texts_membership_witness :
  In "B" (trimmed_texts [Some "A"; None; Some " B "; Some "  "]).
Proof.
  apply (proj2 (trimmed_texts_membership _ "B")).
  split; [discriminate|]. exists " B ". split; [simpl; auto|reflexivity].
Defined.

Lemma numbered_lines_witness :
  exists lines,
    numbered ["A"; "B"] = Js.join Js.nl lines
    /\ nth_error lines 1 = Some "2. B".
Proof.
  destruct (numbered_lines ["A"; "B"]) as (lines & Hjoin & _ & Hnth).
  exists lines. split; [exact Hjoin|]. exact (Hnth 1 "B" eq_refl).
Defined.
